(** * Playlist / song service (server part of [src/public/app.js])

    A shallow embedding of the Express handlers of the music playlist
    server: the multer upload middleware (file filter, size limit, disk
    storage), the two mongoose collections and the request handlers that
    read and write them.

    Modelling conventions.
    - JavaScript strings are Rocq strings; [toLowerCase] acts on the ASCII
      letters, which is all the allow-list test can observe.
    - JavaScript numbers that hold a duration are exact rationals ([Q]);
      [Math.floor], [/] and [%] are the exact operations, and an integral
      number prints in plain decimal.
    - The collaborators that live outside the repository are parameters of
      the development: [path.extname], the mongoose [ObjectId] cast,
      [music-metadata]'s [parseFile] and the failure of [fs.unlinkSync].
    - The record store and the file system are total: a handler's [catch]
      branch is reached only by the errors the handler body itself can
      raise (cast, validation, duplicate key, extraction, unlink).
    - The browser client is modelled by the state of its hooks and by the
      functions that update it; a request of the client is a call of the
      handler it addresses, and it resolves when the status is 2xx. *)

From Stdlib Require Import ZArith QArith Qround Ascii String List.
From Stdlib Require Import Decimal DecimalString DecimalPos DecimalZ Lqa.
From stdpp Require Import gmap strings list sorting.

Local Open Scope string_scope.

(** ** JavaScript primitives *)

Module JS.

(** [x || y] on an optional string: [undefined] and the empty string are
  falsy. *)
Definition or_string (x : option string) (y : string) : string :=
match x with
| Some s => if String.eqb s "" then y else s
| None => y
end.

(** [x || 0] on an optional number: [undefined] and [0] are falsy. *)
Definition or_zero (x : option Q) : Q :=
match x with
| Some d => if Qeq_bool d 0 then 0%Q else d
| None => 0%Q
end.

(** [Math.floor]. *)
Definition floor (x : Q) : Z := Qfloor x.

(** Rounding towards zero, as used by the remainder operator. *)
Definition trunc (x : Q) : Z :=
if Qle_bool 0 x then Qfloor x else Qceiling x.

(** [a % b]: the remainder has the sign of the dividend. *)
Definition rem (a b : Q) : Q := (a - b * inject_Z (trunc (a / b)))%Q.

(** [Number.prototype.toString] on an integral number. *)
Definition toString (n : Z) : string := NilZero.string_of_int (Z.to_int n).

Fixpoint repeat_char (n : nat) (c : ascii) : string :=
match n with
| O => EmptyString
| S k => String c (repeat_char k c)
end.

(** [s.padStart(n, c)] for a one-character pad string. *)
Definition padStart (n : nat) (c : ascii) (s : string) : string :=
repeat_char (n - String.length s) c ++ s.

Definition lower_ascii (c : ascii) : ascii :=
let n := nat_of_ascii c in
if (Nat.leb 65 n && Nat.leb n 90)%bool then ascii_of_nat (n + 32) else c.

(** [s.toLowerCase()]. *)
Fixpoint toLowerCase (s : string) : string :=
match s with
| EmptyString => EmptyString
| String c t => String (lower_ascii c) (toLowerCase t)
end.

(** [s.startsWith(p)]. *)
Definition startsWith (p s : string) : bool := String.prefix p s.

(** [s.includes(p)]: [p] occurs somewhere in [s]. *)
Fixpoint includes (p s : string) : bool :=
match s with
| EmptyString => String.prefix p EmptyString
| String _ t => (String.prefix p s || includes p t)%bool
end.

End JS.

(** ** Derived song fields (POST /api/songs, lines 556-559) *)

(** The character class [[^/.]]. *)
Definition not_slash_dot (c : ascii) : bool :=
  negb (Ascii.eqb c "/" || Ascii.eqb c ".")%bool.

Fixpoint all_chars (p : ascii -> bool) (s : string) : bool :=
  match s with
  | EmptyString => true
  | String c t => (p c && all_chars p t)%bool
  end.

(** The regular expression [/\.[^/.]+$/] anchored at the head of [s]: a dot
    followed by one or more characters other than slash and dot, up to the
    end of the string. *)
Definition ext_suffix (s : string) : bool :=
  match s with
  | String "." (String c t) => all_chars not_slash_dot (String c t)
  | _ => false
  end.

(** [name.replace(/\.[^/.]+$/, "")]: the leftmost match is removed; it
    extends to the end of the string. *)
Fixpoint stripExtension (name : string) : string :=
  match name with
  | EmptyString => EmptyString
  | String c t =>
      if ext_suffix name then EmptyString else String c (stripExtension t)
  end.

(** [`${Math.floor(d / 60)}:${Math.floor(d % 60).toString().padStart(2, '0')}`] *)
Definition formatDuration (d : Q) : string :=
  JS.toString (JS.floor (d / 60)) ++ ":" ++
  JS.padStart 2 "0" (JS.toString (JS.floor (JS.rem d 60))).

(** ** Data model (mongoose schemas, lines 450-491) *)

(** A mongoose [ObjectId]; how a string is cast to one is a parameter
    below. *)
Definition ObjectId := N.

Definition bytes := list Byte.byte.

Module Playlist.
Record t := mk {
  _id : ObjectId;
  name : string;              (* required *)
  creator : option string;
  createdAt : Z               (* Date, default Date.now *)
}.
End Playlist.

Module Song.
Record t := mk {
  _id : ObjectId;
  title : string;             (* required *)
  artist : option string;
  duration : option string;
  audioFile : option string;  (* path of the uploaded audio file *)
  playlistId : ObjectId       (* required, ref 'Playlist' *)
}.
End Song.

(** What [music-metadata] reports: [metadata.common.title],
    [metadata.common.artist], [metadata.format.duration]. *)
Record Metadata := {
  common_title : option string;
  common_artist : option string;
  format_duration : option Q
}.

(** The file part of a multipart request, as multer hands it to the
    file filter. *)
Record File := {
  originalname : string;
  mimetype : string;
  content : bytes
}.

(** The two collections and the directory tree below [__dirname], keyed by
    relative path. *)
Record Store := {
  playlists : list Playlist.t;
  songs : list Song.t;
  files : gmap string bytes
}.

Definition set_playlists (st : Store) (l : list Playlist.t) : Store :=
  {| playlists := l; songs := songs st; files := files st |}.
Definition set_songs (st : Store) (l : list Song.t) : Store :=
  {| playlists := playlists st; songs := l; files := files st |}.
Definition set_files (st : Store) (fs : gmap string bytes) : Store :=
  {| playlists := playlists st; songs := songs st; files := fs |}.

(** ** Responses *)

Inductive Error :=
| OnlyAudioFilesAllowed   (* fileFilter: Error('Only audio files are allowed') *)
| LimitFileSize           (* multer: the file exceeds limits.fileSize *)
| CastError               (* mongoose: the id is not an ObjectId *)
| ValidationError         (* mongoose: a required path is missing or uncastable *)
| DuplicateKey            (* the store refuses a second document with the same _id *)
| ParseFileError          (* mm.parseFile threw *)
| UnlinkError.            (* fs.unlinkSync threw *)

Inductive Body :=
| ErrorJson (e : Error)                         (* { error: error.message } *)
| ErrorText (msg : string)                      (* { error: msg } *)
| MessageJson (msg : string)                    (* { message: msg } *)
| PlaylistsJson (l : list Playlist.t)
| PlaylistJson (p : Playlist.t)
| SongJson (s : Song.t)
| DetailsJson (p : Playlist.t) (l : list Song.t)  (* { playlist, songs } *)
| ErrorPage (e : Error).                        (* Express's default error handler *)

Record Response := { status : nat; body : Body }.

Definition json (b : Body) : Response := {| status := 200; body := b |}.
Definition failure (e : Error) : Response := {| status := 500; body := ErrorJson e |}.

(** ** Collection queries *)

Definition findPlaylistById (oid : ObjectId) (l : list Playlist.t) : option Playlist.t :=
  List.find (fun p => N.eqb (Playlist._id p) oid) l.

Definition findSongById (oid : ObjectId) (l : list Song.t) : option Song.t :=
  List.find (fun s => N.eqb (Song._id s) oid) l.

(** [deleteOne({ _id })]: the first document with that id goes. *)
Fixpoint removePlaylist (oid : ObjectId) (l : list Playlist.t) : list Playlist.t :=
  match l with
  | [] => []
  | p :: t => if N.eqb (Playlist._id p) oid then t else p :: removePlaylist oid t
  end.

Fixpoint removeSong (oid : ObjectId) (l : list Song.t) : list Song.t :=
  match l with
  | [] => []
  | s :: t => if N.eqb (Song._id s) oid then t else s :: removeSong oid t
  end.

(** [Song.find({ playlistId })]. *)
Definition songsOf (oid : ObjectId) (l : list Song.t) : list Song.t :=
  List.filter (fun s => N.eqb (Song.playlistId s) oid) l.

(** [Song.deleteMany({ playlistId })]. *)
Definition deleteSongsOf (oid : ObjectId) (l : list Song.t) : list Song.t :=
  List.filter (fun s => negb (N.eqb (Song.playlistId s) oid)) l.

(** The order [sort({ createdAt: -1 })] asks for. *)
Definition newer_first (p q : Playlist.t) : Prop :=
  (Playlist.createdAt q <= Playlist.createdAt p)%Z.

#[global] Instance newer_first_dec p q : Decision (newer_first p q).
Proof. unfold newer_first. apply _. Defined.

(** [Playlist.find().sort({ createdAt: -1 })]. *)
Definition sortByCreatedAtDesc (l : list Playlist.t) : list Playlist.t :=
  merge_sort newer_first l.

(** ** Upload middleware (multer, lines 415-439) *)

(** [/mp3|wav|ogg|m4a/.test(s)]. *)
Definition allowedTypes (s : string) : bool :=
  (JS.includes "mp3" s || JS.includes "wav" s ||
   JS.includes "ogg" s || JS.includes "m4a" s)%bool.

(** [limits.fileSize]. *)
Definition fileSizeLimit : Z := 10 * 1024 * 1024.

(** [audioFile.replace(/^\//, '')], then joined to [__dirname]. *)
Definition blobPath (audioFile : string) : string :=
  match audioFile with
  | String "/" t => t
  | _ => audioFile
  end.

(** A POST /api/songs request: the form field, the file part, and what the
    server draws from its environment while serving it (the
    [Date.now() + '-' + random] suffix of the stored name, the [_id] of
    the new document). *)
Record SongRequest := {
  body_playlistId : option string;
  req_file : option File;
  uniqueSuffix : string;
  song_id : ObjectId
}.

Record PlaylistRequest := {
  body_name : option string;
  body_creator : option string;
  now : Z;
  playlist_id : ObjectId
}.

Section Server.

(** [path.extname]. *)
Variable extname : string -> string.
(** The cast mongoose applies to an id given as a string; [None] is a
    [CastError]. *)
Variable castObjectId : string -> option ObjectId.
(** [mm.parseFile] on the content of a file; [None] when it throws. *)
Variable parseFile : bytes -> option Metadata.
(** Whether [fs.unlinkSync] throws on an existing path. *)
Variable unlinkFails : string -> bool.

Definition extnameAllowed (file : File) : bool :=
  allowedTypes (JS.toLowerCase (extname (originalname file))).

Definition mimetypeAllowed (file : File) : bool :=
  (allowedTypes (mimetype file) || JS.startsWith "audio/" (mimetype file))%bool.

Definition fileFilter (file : File) : bool :=
  (mimetypeAllowed file && extnameAllowed file)%bool.

(** [storage.filename]. *)
Definition storedName (req : SongRequest) (file : File) : string :=
  uniqueSuffix req ++ extname (originalname file).

(** [upload.single('audioFile')]: the filter runs before anything is
    written; a file over the limit is removed again before the error is
    passed on. On success the file lies under [uploads/] and [req.file]
    carries its stored name. *)
(** The store once the disk storage has written the file under
    [uploads/]. *)
Definition uploaded (st : Store) (req : SongRequest) (file : File) : Store :=
  set_files st (<["uploads/" ++ storedName req file := content file]> (files st)).

Definition upload (st : Store) (req : SongRequest)
  : Store * (Error + option (string * File)) :=
  match req_file req with
  | None => (st, inr None)
  | Some file =>
      if negb (fileFilter file) then (st, inl OnlyAudioFilesAllowed)
      else if (fileSizeLimit <? Z.of_nat (List.length (content file)))%Z
      then (st, inl LimitFileSize)
      else (uploaded st req file, inr (Some (storedName req file, file)))
  end.

(** [new Song({...})] followed by validation: [title] and [playlistId]
    are required, and a [playlistId] that does not cast is a validation
    error as well. *)
Definition newSong (id : ObjectId) (title : string) (artist duration audioFile : string)
    (playlistId : option string) : option Song.t :=
  if String.eqb title "" then None
  else match playlistId with
       | None => None
       | Some p =>
           match castObjectId p with
           | None => None
           | Some oid =>
               Some (Song.mk id title (Some artist) (Some duration) (Some audioFile) oid)
           end
       end.

(** POST /api/songs (lines 543-577). *)
Definition post_api_songs (st : Store) (req : SongRequest) : Store * Response :=
  match upload st req with
  | (st1, inl e) => (st1, {| status := 500; body := ErrorPage e |})
  | (st1, inr None) =>
      (st1, {| status := 400; body := ErrorText "No audio file uploaded" |})
  | (st1, inr (Some (filename, file))) =>
      let filePath := "uploads/" ++ filename in
      match files st1 !! filePath ≫= parseFile with
      | None => (st1, failure ParseFileError)
      | Some metadata =>
          let title :=
            JS.or_string (common_title metadata) (stripExtension (originalname file)) in
          let artist := JS.or_string (common_artist metadata) "Unknown Artist" in
          let durationInSeconds := JS.or_zero (format_duration metadata) in
          let duration := formatDuration durationInSeconds in
          match newSong (song_id req) title artist duration ("/uploads/" ++ filename)
                  (body_playlistId req) with
          | None => (st1, failure ValidationError)
          | Some song =>
              match findSongById (Song._id song) (songs st1) with
              | Some _ => (st1, failure DuplicateKey)
              | None =>
                  (set_songs st1 (songs st1 ++ [song]),
                   {| status := 201; body := SongJson song |})
              end
          end
      end
  end.

(** POST /api/playlists (lines 529-540). *)
Definition post_api_playlists (st : Store) (req : PlaylistRequest) : Store * Response :=
  match body_name req with
  | None => (st, failure ValidationError)
  | Some n =>
      if String.eqb n "" then (st, failure ValidationError)
      else
        let playlist := Playlist.mk (playlist_id req) n (body_creator req) (now req) in
        match findPlaylistById (playlist_id req) (playlists st) with
        | Some _ => (st, failure DuplicateKey)
        | None =>
            (set_playlists st (playlists st ++ [playlist]),
             {| status := 201; body := PlaylistJson playlist |})
        end
  end.

(** GET /api/playlists (lines 519-526). *)
Definition get_api_playlists (st : Store) : Response :=
  json (PlaylistsJson (sortByCreatedAtDesc (playlists st))).

(** GET /api/playlists/:id (lines 580-602). *)
Definition get_api_playlists_id (st : Store) (id : string) : Response :=
  match castObjectId id with
  | None => failure CastError
  | Some oid =>
      match findPlaylistById oid (playlists st) with
      | None => {| status := 404; body := ErrorText "Playlist not found" |}
      | Some playlist => json (DetailsJson playlist (songsOf oid (songs st)))
      end
  end.

(** The body of the cleanup loop for one song (lines 620-625): nothing
    happens without an [audioFile] or when the file does not exist;
    [None] when [unlinkSync] throws. *)
Definition unlinkBlob (fs : gmap string bytes) (audioFile : option string)
  : option (gmap string bytes) :=
  match audioFile with
  | None => Some fs
  | Some a =>
      if String.eqb a "" then Some fs
      else
        let filePath := blobPath a in
        match fs !! filePath with
        | None => Some fs
        | Some _ => if unlinkFails filePath then None else Some (delete filePath fs)
        end
  end.

(** [songs.forEach(...)] (lines 619-626): the songs are visited in
    order; an exception leaves the loop. The file system reached is
    returned in either case, under [inl] when the loop threw. *)
Fixpoint unlinkBlobs (fs : gmap string bytes) (l : list Song.t)
  : gmap string bytes + gmap string bytes :=
  match l with
  | [] => inr fs
  | song :: rest =>
      match unlinkBlob fs (Song.audioFile song) with
      | None => inl fs
      | Some fs' => unlinkBlobs fs' rest
      end
  end.

(** DELETE /api/playlists/:id (lines 605-636). *)
Definition delete_api_playlists_id (st : Store) (id : string) : Store * Response :=
  match castObjectId id with
  | None => (st, failure CastError)
  | Some oid =>
      match findPlaylistById oid (playlists st) with
      | None => (st, {| status := 404; body := ErrorText "Playlist not found" |})
      | Some playlist =>
          let st1 := set_playlists st (removePlaylist oid (playlists st)) in
          match unlinkBlobs (files st1) (songsOf oid (songs st1)) with
          | inl fs => (set_files st1 fs, failure UnlinkError)
          | inr fs =>
              (set_songs (set_files st1 fs) (deleteSongsOf oid (songs st1)),
               json (MessageJson "Playlist and all songs deleted successfully"))
          end
      end
  end.

(** DELETE /api/songs/:id (lines 639-662). *)
Definition delete_api_songs_id (st : Store) (id : string) : Store * Response :=
  match castObjectId id with
  | None => (st, failure CastError)
  | Some oid =>
      match findSongById oid (songs st) with
      | None => (st, {| status := 404; body := ErrorText "Song not found" |})
      | Some song =>
          let st1 := set_songs st (removeSong oid (songs st)) in
          match unlinkBlob (files st1) (Song.audioFile song) with
          | None => (st1, failure UnlinkError)
          | Some fs => (set_files st1 fs, json (MessageJson "Song deleted successfully"))
          end
      end
  end.

End Server.

(** ** Specification-side definitions *)

(** The real-number [x mod m] of the specification. *)
Definition spec_mod (x m : Q) : Q := (x - m * inject_Z (Qfloor (x / m)))%Q.

Definition digit (n : Z) : ascii := ascii_of_nat (48 + Z.to_nat n).

(** A number below 100 written with exactly two decimal digits. *)
Definition zero_padded_2 (n : Z) : string :=
  String (digit (n / 10)) (String (digit (n mod 10)) EmptyString).

(** [floor(d/60) + ":" + zero-padded(floor(d mod 60), 2)]. *)
Definition spec_duration (d : Q) : string :=
  JS.toString (Qfloor (d / 60)) ++ ":" ++ zero_padded_2 (Qfloor (spec_mod d 60)).

(** The extractor's duration, or 0 when it yields none. *)
Definition durationSeconds (md : Metadata) : Q :=
  match format_duration md with
  | Some d => d
  | None => 0%Q
  end.

(** The paths the cleanup loop looks at for a list of songs. *)
Fixpoint blobPaths (l : list Song.t) : list string :=
  match l with
  | [] => []
  | song :: rest =>
      match Song.audioFile song with
      | Some a => if String.eqb a "" then blobPaths rest else blobPath a :: blobPaths rest
      | None => blobPaths rest
      end
  end.

(** ** Sample collaborators

    Concrete instances of the four parameters, on which the handlers can
    be run. *)

Module Sample.

(** The suffix that starts at the last dot; agrees with [path.extname]
    on plain file names such as [track.mp3]. *)
Fixpoint extname (s : string) : string :=
  match s with
  | EmptyString => EmptyString
  | String c t =>
      if JS.includes "." t then extname t
      else if Ascii.eqb c "." then s else EmptyString
  end.

Definition hexDigit (c : ascii) : option N :=
  let n := N_of_ascii c in
  if ((48 <=? n) && (n <=? 57))%N then Some (n - 48)%N
  else if ((97 <=? n) && (n <=? 102))%N then Some (n - 87)%N
  else if ((65 <=? n) && (n <=? 70))%N then Some (n - 55)%N
  else None.

Fixpoint hexValue (acc : N) (s : string) : option N :=
  match s with
  | EmptyString => Some acc
  | String c t =>
      match hexDigit c with
      | Some d => hexValue (16 * acc + d)%N t
      | None => None
      end
  end.

(** Twenty-four hexadecimal digits. *)
Definition castObjectId (s : string) : option ObjectId :=
  if Nat.eqb (String.length s) 24 then hexValue 0%N s else None.

(** An extractor driven by the first byte of the file: no bytes at all
    make it throw, [x01] is a fully tagged file of 125 seconds, [x02]
    carries empty tag strings, [x03] is an untagged file of 30 seconds,
    anything else has no tags and no duration. *)
Definition parseFile (data : bytes) : option Metadata :=
  match data with
  | [] => None
  | Byte.x01 :: _ =>
      Some {| common_title := Some "Foo"; common_artist := Some "Bar";
              format_duration := Some 125%Q |}
  | Byte.x02 :: _ =>
      Some {| common_title := Some ""; common_artist := Some "";
              format_duration := None |}
  | Byte.x03 :: _ =>
      Some {| common_title := None; common_artist := None;
              format_duration := Some 30%Q |}
  | _ =>
      Some {| common_title := None; common_artist := None;
              format_duration := None |}
  end.

(** Every unlink succeeds. *)
Definition unlinkNeverFails (path : string) : bool := false.

(** One file cannot be removed. *)
Definition unlinkFailsOn (locked path : string) : bool := String.eqb path locked.

Definition emptyStore : Store := {| playlists := []; songs := []; files := ∅ |}.

Definition idA : string := "0000000000000000000000a1".
Definition idB : string := "0000000000000000000000b2".

Definition track (b : Byte.byte) : File :=
  {| originalname := "track.mp3"; mimetype := "audio/mpeg"; content := [b] |}.

Definition songRequest (p : option string) (f : option File) (n : N) : SongRequest :=
  {| body_playlistId := p; req_file := f;
     uniqueSuffix := "1700000000000-" ++ JS.toString (Z.of_N n); song_id := n |}.

Definition post := post_api_songs extname castObjectId parseFile.


(** A file of no bytes, on which the extractor throws. *)
Definition broken : File :=
  {| originalname := "track.mp3"; mimetype := "audio/mpeg"; content := [] |}.

(** Two playlists; the first owns two songs, the second one; every song
    has its file on disk. *)
Definition roadTrip : Playlist.t :=
  Playlist.mk 161%N "Road Trip" (Some "DJ Nitin") 1700000000000%Z.
Definition evening : Playlist.t :=
  Playlist.mk 178%N "Evening" None 1700000005000%Z.

Definition song1 : Song.t :=
  Song.mk 1%N "One" (Some "Unknown Artist") (Some "0:30") (Some "/uploads/a.mp3") 161%N.
Definition song2 : Song.t :=
  Song.mk 2%N "Two" (Some "Unknown Artist") (Some "2:05") (Some "/uploads/b.mp3") 161%N.
Definition song3 : Song.t :=
  Song.mk 3%N "Three" (Some "Bar") (Some "0:00") (Some "/uploads/c.mp3") 178%N.

Definition library : Store :=
  {| playlists := [roadTrip; evening];
     songs := [song1; song2; song3];
     files := <["uploads/a.mp3" := [Byte.x03]]>
                (<["uploads/b.mp3" := [Byte.x01]]>
                   (<["uploads/c.mp3" := [Byte.x00]]> ∅)) |}.

End Sample.

(** ** Resetting the server (DELETE /api/clear-all, lines 496-516) *)

(** [s] without its prefix [p], when it has that prefix. *)
Fixpoint afterPrefix (p s : string) : option string :=
  match p, s with
  | EmptyString, _ => Some s
  | String a p', String b s' => if Ascii.eqb a b then afterPrefix p' s' else None
  | String _ _, EmptyString => None
  end.

(** The paths the loop over [fs.readdirSync(uploadsDir)] unlinks: those of
    the entries of [uploads/] that are files. An entry that is a
    directory fails the [isFile()] test, and the files below it are not
    looked at. *)
Definition inUploads (path : string) : bool :=
  match afterPrefix "uploads/" path with
  | Some name => (negb (String.eqb name "") && negb (JS.includes "/" name))%bool
  | None => false
  end.

(** The files found in [uploads/], in the order of the directory
    listing. *)
Definition uploadedFiles (fs : gmap string bytes) : list string :=
  List.filter inUploads (List.map fst (map_to_list fs)).

Section Reset.

Variable unlinkFails : string -> bool.

(** [files.forEach(...)] (lines 504-509): every listed file is unlinked;
    an exception leaves the loop. The file system reached is returned
    under [inl] when the loop threw. *)
Fixpoint unlinkFiles (fs : gmap string bytes) (paths : list string)
  : gmap string bytes + gmap string bytes :=
  match paths with
  | [] => inr fs
  | path :: rest =>
      if unlinkFails path then inl fs else unlinkFiles (delete path fs) rest
  end.

(** DELETE /api/clear-all (lines 496-516): both collections are emptied
    before the directory is read. *)
Definition delete_api_clear_all (st : Store) : Store * Response :=
  let st1 := set_playlists (set_songs st []) [] in
  match unlinkFiles (files st1) (uploadedFiles (files st1)) with
  | inl fs => (set_files st1 fs, failure UnlinkError)
  | inr fs =>
      (set_files st1 fs, json (MessageJson "All data cleared successfully"))
  end.

End Reset.

(** ** Store invariant *)

(** No two documents of a collection share an [_id]. *)
Definition uniqueIds (st : Store) : Prop :=
  NoDup (Playlist._id <$> playlists st) /\
  NoDup (Song._id <$> songs st).

(** No two playlists were created in the same millisecond. *)
Definition distinctTimestamps (l : list Playlist.t) : Prop :=
  forall p q, p ∈ l -> q ∈ l -> Playlist.createdAt p = Playlist.createdAt q -> p = q.

(** ** The browser client (React components, lines 1-397) *)

(** [formatTime] of the player (lines 39-44); [None] stands for [NaN],
    the only number [isNaN] accepts. *)
Definition formatTime (time : option Q) : string :=
  match time with
  | None => "0:00"
  | Some t =>
      let minutes := JS.floor (t / 60) in
      let seconds := JS.floor (JS.rem t 60) in
      JS.toString minutes ++ ":" ++ JS.padStart 2 "0" (JS.toString seconds)
  end.

(** axios resolves a request whose status is 2xx and rejects any other. *)
Definition resolves (res : Response) : bool :=
  (Nat.leb 200 (status res) && Nat.ltb (status res) 300)%bool.

Module UI.

(** The state hooks of [App] and [PlaylistDetails]. The ids the
    components compare are the strings of the JSON documents; two of them
    are equal exactly when the ids are. *)
Record t := mk {
  playlists : list Playlist.t;            (* App *)
  selectedPlaylistId : option ObjectId;   (* App *)
  playlist : option Playlist.t;           (* PlaylistDetails *)
  songs : list Song.t;                    (* PlaylistDetails *)
  currentSong : option Song.t             (* PlaylistDetails *)
}.


(** [handlePlaylistCreated] (lines 345-348). *)
Definition handlePlaylistCreated (ui : t) (newPlaylist : Playlist.t) : t :=
  mk (newPlaylist :: playlists ui) (Some (Playlist._id newPlaylist))
     (playlist ui) (songs ui) (currentSong ui).

(** [handlePlaylistDeleted] (lines 350-353). *)
Definition handlePlaylistDeleted (ui : t) (deletedId : ObjectId) : t :=
  mk (List.filter (fun p => negb (N.eqb (Playlist._id p) deletedId)) (playlists ui))
     None (playlist ui) (songs ui) (currentSong ui).

(** [handleSongAdded] (lines 215-217). *)
Definition handleSongAdded (ui : t) (newSong : Song.t) : t :=
  mk (playlists ui) (selectedPlaylistId ui) (playlist ui)
     (songs ui ++ [newSong]) (currentSong ui).

(** [playSong] (lines 219-221). *)
Definition playSong (ui : t) (song : Song.t) : t :=
  mk (playlists ui) (selectedPlaylistId ui) (playlist ui) (songs ui) (Some song).

(** The state updates of [deleteSong] once the request has resolved
    (lines 227-230). *)
Definition songDeleted (ui : t) (songId : ObjectId) : t :=
  mk (playlists ui) (selectedPlaylistId ui) (playlist ui)
     (List.filter (fun s => negb (N.eqb (Song._id s) songId)) (songs ui))
     (match currentSong ui with
      | Some c => if N.eqb (Song._id c) songId then None else Some c
      | None => None
      end).

Section Requests.

Variable extname : string -> string.
Variable castObjectId : string -> option ObjectId.
Variable parseFile : bytes -> option Metadata.
Variable unlinkFails : string -> bool.
(** How an [ObjectId] is written in a JSON document and in a URL. *)
Variable idString : ObjectId -> string.




(** [handleSubmit] of [PlaylistForm] (lines 92-103); [now] and [id] are
    what the server draws for the new document. *)
Definition PlaylistForm_handleSubmit (name creator : string) (now : Z) (id : ObjectId)
    (st : Store) (ui : t) : Store * t :=
  let (st', res) :=
    post_api_playlists st
      {| body_name := Some name; body_creator := Some creator;
         now := now; playlist_id := id |} in
  if resolves res then
    match body res with
    | PlaylistJson p => (st', handlePlaylistCreated ui p)
    | _ => (st', ui)
    end
  else (st', ui).

(** [handleSubmit] of [SongForm] (lines 139-167). The form is rendered
    for the playlist that is loaded, whose id it sends; without a chosen
    file no request is made. *)
Definition SongForm_handleSubmit (audioFile : option File) (suffix : string)
    (id : ObjectId) (st : Store) (ui : t) : Store * t :=
  match selectedPlaylistId ui, playlist ui, audioFile with
  | Some _, Some p, Some file =>
      let (st', res) :=
        post_api_songs extname castObjectId parseFile st
          {| body_playlistId := Some (idString (Playlist._id p));
             req_file := Some file; uniqueSuffix := suffix; song_id := id |} in
      if resolves res then
        match body res with
        | SongJson s => (st', handleSongAdded ui s)
        | _ => (st', ui)
        end
      else (st', ui)
  | _, _, _ => (st, ui)
  end.

(** [deleteSong] of [PlaylistDetails] (lines 223-235); [confirmed] is the
    answer to the confirmation dialog. *)
Definition deleteSong (confirmed : bool) (songId : ObjectId)
    (st : Store) (ui : t) : Store * t :=
  if negb confirmed then (st, ui)
  else
    let (st', res) := delete_api_songs_id castObjectId unlinkFails st (idString songId) in
    if resolves res then (st', songDeleted ui songId) else (st', ui).

(** [deletePlaylist] of [PlaylistDetails] (lines 237-246); the button is
    rendered once a playlist is selected and loaded. *)
Definition deletePlaylist (confirmed : bool) (st : Store) (ui : t) : Store * t :=
  match selectedPlaylistId ui, playlist ui with
  | Some playlistId, Some _ =>
      if negb confirmed then (st, ui)
      else
        let (st', res) :=
          delete_api_playlists_id castObjectId unlinkFails st (idString playlistId) in
        if resolves res then (st', handlePlaylistDeleted ui playlistId) else (st', ui)
  | _, _ => (st, ui)
  end.

End Requests.

End UI.

(** The list the browser shows is the one GET /api/playlists would
    answer. *)
Definition listCoherent (st : Store) (ui : UI.t) : Prop :=
  UI.playlists ui = sortByCreatedAtDesc (playlists st).

(** The playlist and the songs the browser shows for the selected id are
    the ones GET /api/playlists/:id would answer. *)
Definition detailsCoherent (st : Store) (ui : UI.t) : Prop :=
  forall playlistId, UI.selectedPlaylistId ui = Some playlistId ->
    exists p, findPlaylistById playlistId (playlists st) = Some p /\
              UI.playlist ui = Some p /\
              UI.songs ui = songsOf playlistId (songs st).

(** ** A sample browser session *)

Module Demo.

Definition hexChar (d : N) : ascii :=
  if (d <? 10)%N then ascii_of_N (48 + d) else ascii_of_N (87 + d).

Fixpoint hexDigits (k : nat) (n : N) (acc : string) : string :=
  match k with
  | O => acc
  | S k' => hexDigits k' (n / 16)%N (String (hexChar (n mod 16)%N) acc)
  end.

(** An id written as twenty-four hexadecimal digits. *)
Definition idString (n : ObjectId) : string := hexDigits 24 n "".

(** The browser after it has loaded the sample library and the first
    playlist has been selected and one of its songs started. *)
Definition ui : UI.t :=
  UI.mk [Sample.evening; Sample.roadTrip] (Some 161%N) (Some Sample.roadTrip)
        [Sample.song1; Sample.song2] (Some Sample.song1).

Definition playlistRequest (name : string) (t : Z) (n : N) : PlaylistRequest :=
  {| body_name := Some name; body_creator := Some "DJ Nitin"; now := t; playlist_id := n |}.

(** The sample library after its first playlist has been deleted behind
    the songs' back. *)
Definition orphaned : Store := set_playlists Sample.library [Sample.evening].

End Demo.

(** * Properties *)

(** ** Duration formatting *)

Lemma formatDuration_125 : formatDuration 125 = "2:05".
Proof. vm_compute. reflexivity. Qed.

Lemma formatDuration_absent : formatDuration (JS.or_zero None) = "0:00".
Proof. vm_compute. reflexivity. Qed.

Lemma stripExtension_track : stripExtension "track.mp3" = "track".
Proof. vm_compute. reflexivity. Qed.

Lemma formatDuration_fraction : formatDuration (1257 # 10) = "2:05".
Proof. vm_compute. reflexivity. Qed.

Lemma formatDuration_half_minute : formatDuration 30 = "0:30".
Proof. vm_compute. reflexivity. Qed.

(** The remainder keeps the sign of the dividend, so the two-digit form
    is that of durations that are not negative. *)
Lemma formatDuration_negative : formatDuration (-5) = "-1:-5".
Proof. vm_compute. reflexivity. Qed.

(** What [toString] prints is the decimal numeral of the number: read as
    a numeral it gives the number back. *)
Lemma toString_decimal (n : Z) :
  option_map Z.of_int (NilZero.int_of_string (JS.toString n)) = Some n.
Proof.
  unfold JS.toString. rewrite NilZero.isi.
  - simpl. now rewrite DecimalZ.of_to.
  - destruct n as [|p|p]; simpl; try discriminate.
    intros [= E]. now apply (DecimalPos.Unsigned.to_uint_nonnil p).
  - destruct n as [|p|p]; simpl; try discriminate.
    intros [= E]. now apply (DecimalPos.Unsigned.to_uint_nonnil p).
Qed.

(** Below 60 the printed number has one or two digits, and padding gives
    exactly the tens and the units. *)
Lemma padStart_two_digits (s : Z) :
  (0 <= s < 60)%Z -> JS.padStart 2 "0" (JS.toString s) = zero_padded_2 s.
Proof.
  intros Hs.
  assert (Hall : forallb (fun k : nat =>
            String.eqb (JS.padStart 2 "0" (JS.toString (Z.of_nat k)))
                       (zero_padded_2 (Z.of_nat k))) (seq 0 60) = true)
    by (vm_compute; reflexivity).
  rewrite forallb_forall in Hall.
  specialize (Hall (Z.to_nat s)).
  rewrite Z2Nat.id in Hall by lia.
  apply String.eqb_eq, Hall, in_seq. lia.
Qed.

Lemma minutes_bracket (d : Q) :
  (0 <= d)%Q ->
  (0 <= d - 60 * inject_Z (Qfloor (d / 60)))%Q /\
  (d - 60 * inject_Z (Qfloor (d / 60)) < 60)%Q.
Proof.
  intros Hd.
  pose proof (Qfloor_le (d / 60)) as Hlo.
  pose proof (Qlt_floor (d / 60)) as Hhi.
  rewrite inject_Z_plus in Hhi. change (inject_Z 1) with 1%Q in Hhi.
  assert (Hmul : (d == 60 * (d / 60))%Q) by field.
  revert Hlo Hhi Hmul. generalize (d / 60)%Q.
  intros q Hlo Hhi Hmul. split; lra.
Qed.

(** For a duration that is not negative the remainder operator is the
    mathematical [mod]. *)
Lemma rem_spec_mod (d : Q) : (0 <= d)%Q -> JS.rem d 60 = spec_mod d 60.
Proof.
  intros Hd. unfold JS.rem, spec_mod, JS.trunc.
  assert (H : Qle_bool 0 (d / 60) = true).
  { apply Qle_bool_iff. apply Qle_shift_div_l; [reflexivity | lra]. }
  now rewrite H.
Qed.

Lemma seconds_range (d : Q) :
  (0 <= d)%Q -> (0 <= Qfloor (spec_mod d 60) < 60)%Z.
Proof.
  intros Hd. destruct (minutes_bracket d Hd) as [Hlo Hhi].
  unfold spec_mod. split.
  - change 0%Z with (Qfloor 0). now apply Qfloor_resp_le.
  - pose proof (Qfloor_le (d - 60 * inject_Z (Qfloor (d / 60)))) as Hf.
    rewrite Zlt_Qlt. eapply Qle_lt_trans; [exact Hf | exact Hhi].
Qed.

Lemma formatDuration_spec (d : Q) :
  (0 <= d)%Q -> formatDuration d = spec_duration d.
Proof.
  intros Hd. unfold formatDuration, spec_duration, JS.floor.
  rewrite rem_spec_mod by exact Hd.
  now rewrite padStart_two_digits by (apply seconds_range; exact Hd).
Qed.

Lemma spec_duration_zero (d : Q) : (d == 0)%Q -> spec_duration d = "0:00".
Proof.
  destruct d as [n p]. unfold Qeq. simpl. rewrite Z.mul_1_r. intros ->.
  reflexivity.
Qed.

(** The string the handler computes from what the extractor reports is
    the specified one. *)
Lemma duration_of_metadata (md : Metadata) :
  (0 <= durationSeconds md)%Q ->
  formatDuration (JS.or_zero (format_duration md)) = spec_duration (durationSeconds md).
Proof.
  unfold durationSeconds, JS.or_zero.
  destruct (format_duration md) as [d|]; [|reflexivity].
  intros Hd. destruct (Qeq_bool d 0) eqn:Hz.
  - apply Qeq_bool_eq in Hz. now rewrite spec_duration_zero.
  - now apply formatDuration_spec.
Qed.

(** ** Removing the extension *)

Lemma all_chars_app (p : ascii -> bool) (s t : string) :
  all_chars p (s ++ t) = (all_chars p s && all_chars p t)%bool.
Proof.
  induction s as [|c s IH]; simpl; [reflexivity|].
  rewrite IH. now rewrite andb_assoc.
Qed.

(** The match cannot start before the last dot. *)
Lemma ext_suffix_before_dot (c : ascii) (base ext : string) :
  ext_suffix (String c (base ++ "." ++ ext)) = false.
Proof.
  unfold ext_suffix. destruct (Ascii.eqb_spec c "."%char) as [->|Hc].
  - destruct base as [|b base]; simpl.
    + reflexivity.
    + rewrite all_chars_app. simpl.
      now rewrite !andb_false_r.
  - destruct c as [[] [] [] [] [] [] [] []]; try reflexivity. now contradict Hc.
Qed.

(** A name [base.ext] loses [.ext]. *)
Lemma stripExtension_base_ext (base ext : string) :
  ext <> "" -> all_chars not_slash_dot ext = true ->
  stripExtension (base ++ "." ++ ext) = base.
Proof.
  intros Hne Hext. induction base as [|c base IH].
  - destruct ext as [|e ext]; [congruence|].
    simpl in *. now rewrite Hext.
  - change (stripExtension (String c (base ++ "." ++ ext)) = String c base).
    cbn [stripExtension]. rewrite ext_suffix_before_dot. now rewrite IH.
Qed.

(** A name without a dot is left as it is. *)
Lemma stripExtension_no_dot (name : string) :
  JS.includes "." name = false -> stripExtension name = name.
Proof.
  induction name as [|c name IH]; [reflexivity|].
  cbn [JS.includes stripExtension]. intros H.
  apply orb_false_elim in H as [Hc Hrest].
  assert (Hs : ext_suffix (String c name) = false).
  { unfold ext_suffix. destruct c as [[] [] [] [] [] [] [] []]; try reflexivity.
    simpl in Hc. destruct name; discriminate. }
  rewrite Hs. now rewrite IH.
Qed.

(** ** The handlers *)

Section Handlers.

Variable extname : string -> string.
Variable castObjectId : string -> option ObjectId.
Variable parseFile : bytes -> option Metadata.
Variable unlinkFails : string -> bool.

Local Abbreviation post := (post_api_songs extname castObjectId parseFile).
Local Abbreviation created song := {| status := 201; body := SongJson song |}.

(** The extractor reads back what the disk storage has just written. *)
Lemma uploaded_lookup st req file :
  files (uploaded extname st req file) !! ("uploads/" ++ storedName extname req file)
  = Some (content file).
Proof. unfold uploaded. simpl. apply lookup_insert_eq. Qed.

(** A file that passes the filter and the size limit is written, and
    the handler sees it under its stored name. *)
Lemma upload_accepts st req file :
  req_file req = Some file ->
  fileFilter extname file = true ->
  (Z.of_nat (List.length (content file)) <= fileSizeLimit)%Z ->
  upload extname st req
  = (uploaded extname st req file, inr (Some (storedName extname req file, file))).
Proof.
  intros Hfile Hfilter Hsize. unfold upload. rewrite Hfile, Hfilter. cbn [negb].
  apply Z.ltb_ge in Hsize. now rewrite Hsize.
Qed.

(** What a 201 answer of POST /api/songs tells about the request. *)
Lemma post_created st req st' song :
  post st req = (st', created song) ->
  exists file md p oid,
    req_file req = Some file /\
    fileFilter extname file = true /\
    (Z.of_nat (List.length (content file)) <= fileSizeLimit)%Z /\
    parseFile (content file) = Some md /\
    body_playlistId req = Some p /\ castObjectId p = Some oid /\
    findSongById (song_id req) (songs st) = None /\
    Song.title song <> "" /\
    song = Song.mk (song_id req)
             (JS.or_string (common_title md) (stripExtension (originalname file)))
             (Some (JS.or_string (common_artist md) "Unknown Artist"))
             (Some (formatDuration (JS.or_zero (format_duration md))))
             (Some ("/uploads/" ++ storedName extname req file)) oid /\
    st' = set_songs (uploaded extname st req file) (songs st ++ [song]).
Proof.
  unfold post_api_songs, upload.
  destruct (req_file req) as [file|]; [|discriminate].
  destruct (fileFilter extname file) eqn:Hfilter; [|discriminate]. cbn [negb].
  destruct (fileSizeLimit <? _)%Z eqn:Hsize; [discriminate|].
  rewrite uploaded_lookup. cbn [mbind option_bind].
  destruct (parseFile (content file)) as [md|] eqn:Hparse; [|discriminate].
  unfold newSong.
  destruct (String.eqb _ "") eqn:Htitle; [discriminate|].
  destruct (body_playlistId req) as [p|] eqn:Hp; [|discriminate].
  destruct (castObjectId p) as [oid|] eqn:Hcast; [|discriminate].
  cbn [Song._id].
  destruct (findSongById (song_id req) _) eqn:Hfresh; [discriminate|].
  intros H. injection H as <- <-.
  exists file, md, p, oid. repeat split; try (assumption || reflexivity).
  - fold (Z.le (Z.of_nat (List.length (content file))) fileSizeLimit).
    now apply Z.ltb_ge.
  - cbn [Song.title]. intros E. rewrite E in Htitle. discriminate.
Qed.

(** The row that is answered is the row that was appended. *)
Lemma post_created_stored st req st' song :
  post st req = (st', created song) -> song ∈ songs st'.
Proof.
  intros H. apply post_created in H as (file & md & p & oid & H).
  destruct H as (_ & _ & _ & _ & _ & _ & _ & _ & _ & ->).
  simpl. apply elem_of_app. right. apply list_elem_of_singleton. reflexivity.
Qed.

(** C1. After a successful POST /api/songs the stored duration is
    [floor(d/60)], a colon, and [floor(d mod 60)] written with two
    digits, where [d] is the duration the extractor reports (a number
    of seconds that is not negative) or 0 when it reports none; 125
    seconds give ["2:05"] and no duration gives ["0:00"]. *)
Theorem song_duration_format st req st' song file md :
  post st req = (st', created song) ->
  req_file req = Some file ->
  parseFile (content file) = Some md ->
  (0 <= durationSeconds md)%Q ->
  song ∈ songs st' /\
  Song.duration song = Some (spec_duration (durationSeconds md)) /\
  (format_duration md = Some 125%Q -> Song.duration song = Some "2:05") /\
  (format_duration md = None -> Song.duration song = Some "0:00").
Proof.
  intros Hpost Hfile Hparse Hd.
  split; [eapply post_created_stored; eassumption|].
  apply post_created in Hpost as (file' & md' & p & oid & H).
  destruct H as (Hfile' & _ & _ & Hparse' & _ & _ & _ & _ & -> & _).
  assert (file' = file) as -> by congruence.
  assert (md' = md) as -> by congruence.
  cbn [Song.duration]. split; [|split].
  - now rewrite duration_of_metadata.
  - intros ->. reflexivity.
  - intros ->. reflexivity.
Qed.

(** C2, as amended. After a successful POST /api/songs the stored title
    is the extracted title when one is present and not empty, and
    otherwise (absent or empty) the original file name without its
    extension; the stored artist is the extracted artist when one is
    present and not empty, and otherwise ["Unknown Artist"]. An
    untagged [track.mp3] gets the title ["track"] and the artist
    ["Unknown Artist"]. *)
Theorem song_title_artist st req st' song file md :
  post st req = (st', created song) ->
  req_file req = Some file ->
  parseFile (content file) = Some md ->
  song ∈ songs st' /\
  (forall t, common_title md = Some t -> t <> "" -> Song.title song = t) /\
  (common_title md = None \/ common_title md = Some "" ->
   Song.title song = stripExtension (originalname file)) /\
  (forall base ext, originalname file = base ++ "." ++ ext ->
     ext <> "" -> all_chars not_slash_dot ext = true ->
     stripExtension (originalname file) = base) /\
  (forall a, common_artist md = Some a -> a <> "" -> Song.artist song = Some a) /\
  (common_artist md = None \/ common_artist md = Some "" ->
   Song.artist song = Some "Unknown Artist") /\
  (originalname file = "track.mp3" ->
   common_title md = None -> common_artist md = None ->
   Song.title song = "track" /\ Song.artist song = Some "Unknown Artist").
Proof.
  intros Hpost Hfile Hparse.
  split; [eapply post_created_stored; eassumption|].
  apply post_created in Hpost as (file' & md' & p & oid & H).
  destruct H as (Hfile' & _ & _ & Hparse' & _ & _ & _ & _ & -> & _).
  assert (file' = file) as -> by congruence.
  assert (md' = md) as -> by congruence.
  cbn [Song.title Song.artist].
  split; [|split; [|split; [|split; [|split]]]].
  - intros t -> Ht. simpl. destruct (String.eqb_spec t ""); congruence.
  - intros [-> | ->]; reflexivity.
  - intros base ext -> Hne Hext. now apply stripExtension_base_ext.
  - intros a -> Ha. simpl. destruct (String.eqb_spec a ""); congruence.
  - intros [-> | ->]; reflexivity.
  - intros -> -> ->. split; reflexivity.
Qed.

(** C3, as amended. POST /api/songs does not look at the Playlist
    collection: the new row carries the cast of the [playlistId] form
    field, the collection is left as it was, and the same request gives
    the same row whatever playlists exist. *)
Theorem song_playlist_unchecked st req st' song :
  post st req = (st', created song) ->
  (exists p, body_playlistId req = Some p /\
             castObjectId p = Some (Song.playlistId song)) /\
  playlists st' = playlists st /\
  (forall pls, post (set_playlists st pls) req = (set_playlists st' pls, created song)).
Proof.
  intros Hpost.
  apply post_created in Hpost as (file & md & p & oid & H).
  destruct H as (Hfile & Hfilter & Hsize & Hparse & Hp & Hcast & Hfresh & Htitle & Hsong & ->).
  split; [|split].
  - exists p. now rewrite Hsong.
  - reflexivity.
  - intros pls. unfold post_api_songs.
    rewrite (upload_accepts _ req file) by assumption.
    rewrite uploaded_lookup. cbn [mbind option_bind]. rewrite Hparse.
    unfold newSong. rewrite Hp, Hcast.
    rewrite Hsong in Htitle. cbn [Song.title] in Htitle.
    apply String.eqb_neq in Htitle. rewrite Htitle.
    cbn [Song._id].
    change (songs (uploaded extname (set_playlists st pls) req file)) with (songs st).
    rewrite Hfresh, Hsong. reflexivity.
Qed.

(** A MIME type below [audio/] passes the MIME half of the filter, and
    the extension half only sees the extension in lower case. *)
Lemma mimetypeAllowed_audio file :
  JS.startsWith "audio/" (mimetype file) = true -> mimetypeAllowed file = true.
Proof. unfold mimetypeAllowed. intros ->. apply orb_true_r. Qed.



(** C6. When the extractor throws on the file that has just been
    stored, POST /api/songs answers 500 with the error, inserts no row,
    and leaves the stored file where it is. *)
Theorem extractor_failure_orphans_blob st req file :
  req_file req = Some file ->
  fileFilter extname file = true ->
  (Z.of_nat (List.length (content file)) <= fileSizeLimit)%Z ->
  parseFile (content file) = None ->
  post st req = (uploaded extname st req file, failure ParseFileError) /\
  status (snd (post st req)) = 500 /\
  songs (fst (post st req)) = songs st /\
  files (fst (post st req)) !! ("uploads/" ++ storedName extname req file)
    = Some (content file).
Proof.
  intros Hfile Hfilter Hsize Hparse.
  assert (E : post st req = (uploaded extname st req file, failure ParseFileError)).
  { unfold post_api_songs. rewrite (upload_accepts _ req file) by assumption.
    rewrite uploaded_lookup. cbn [mbind option_bind]. now rewrite Hparse. }
  rewrite E. repeat split. apply uploaded_lookup.
Qed.

(** C9. A valid audio file sent with no [playlistId], or with one that
    does not cast to an ObjectId, is stored first; the insert then fails
    validation, the answer is 500, there is no new row, and the stored
    file stays on disk. *)
Theorem bad_playlistId_orphans_blob st req file md :
  req_file req = Some file ->
  fileFilter extname file = true ->
  (Z.of_nat (List.length (content file)) <= fileSizeLimit)%Z ->
  parseFile (content file) = Some md ->
  (body_playlistId req = None \/
   exists p, body_playlistId req = Some p /\ castObjectId p = None) ->
  post st req = (uploaded extname st req file, failure ValidationError) /\
  status (snd (post st req)) = 500 /\
  songs (fst (post st req)) = songs st /\
  files (fst (post st req)) !! ("uploads/" ++ storedName extname req file)
    = Some (content file).
Proof.
  intros Hfile Hfilter Hsize Hparse Hbad.
  assert (E : post st req = (uploaded extname st req file, failure ValidationError)).
  { unfold post_api_songs. rewrite (upload_accepts _ req file) by assumption.
    rewrite uploaded_lookup. cbn [mbind option_bind]. rewrite Hparse.
    unfold newSong. destruct (String.eqb _ ""); [reflexivity|].
    destruct Hbad as [-> | (p & -> & ->)]; reflexivity. }
  rewrite E. repeat split. apply uploaded_lookup.
Qed.

(** ** Reading playlists *)

#[local] Instance newer_first_total : Total newer_first.
Proof. intros p q. unfold newer_first. lia. Qed.

#[local] Instance newer_first_trans : Transitive newer_first.
Proof. intros p q r. unfold newer_first. lia. Qed.

(** C7. GET /api/playlists answers with all the Playlist records, each
    exactly once, newest first: along the array [createdAt] never
    increases. *)
Theorem playlists_newest_first st :
  exists l,
    get_api_playlists st = {| status := 200; body := PlaylistsJson l |} /\
    l ≡ₚ playlists st /\
    StronglySorted newer_first l /\
    (forall i j p q, i <= j -> l !! i = Some p -> l !! j = Some q ->
       (Playlist.createdAt q <= Playlist.createdAt p)%Z).
Proof.
  exists (sortByCreatedAtDesc (playlists st)).
  assert (Hs : StronglySorted newer_first (sortByCreatedAtDesc (playlists st)))
    by (unfold sortByCreatedAtDesc; apply StronglySorted_merge_sort; apply _).
  split; [reflexivity|]. split; [apply merge_sort_Permutation|]. split; [exact Hs|].
  revert Hs. generalize (sortByCreatedAtDesc (playlists st)). intros l Hs.
  induction Hs as [|x l Hs IH Hx]; intros i j p q Hij Hi Hj.
  - discriminate.
  - destruct i as [|i], j as [|j]; simpl in *; try lia.
    + injection Hi as <-. injection Hj as <-. lia.
    + injection Hi as <-. rewrite Forall_forall in Hx.
      apply Hx. eapply list_elem_of_lookup_2. exact Hj.
    + eapply IH; [|eassumption..]. lia.
Qed.

(** C10. GET /api/playlists/:id with an id that does not cast to an
    ObjectId is answered 500 with an error object; the 404 answer is
    that of an id that casts but names no playlist. *)
Theorem malformed_id_is_500 st id :
  (castObjectId id = None ->
   get_api_playlists_id castObjectId st id = {| status := 500; body := ErrorJson CastError |} /\
   status (get_api_playlists_id castObjectId st id) <> 404) /\
  (forall oid, castObjectId id = Some oid ->
   findPlaylistById oid (playlists st) = None ->
   status (get_api_playlists_id castObjectId st id) = 404).
Proof.
  unfold get_api_playlists_id. split.
  - intros ->. split; [reflexivity|]. simpl. discriminate.
  - intros oid -> ->. reflexivity.
Qed.

(** ** Deleting a playlist *)

Local Abbreviation delete := (delete_api_playlists_id castObjectId unlinkFails).
Local Abbreviation deleted :=
  (json (MessageJson "Playlist and all songs deleted successfully")).

(** A song whose file is not on disk is passed over. *)
Lemma unlinkBlob_missing (fs : gmap string bytes) a :
  fs !! blobPath a = None -> unlinkBlob unlinkFails fs (Some a) = Some fs.
Proof. unfold unlinkBlob. intros ->. now destruct (String.eqb a ""). Qed.

Lemma unlinkBlobs_app (fs : gmap string bytes) l1 l2 :
  unlinkBlobs unlinkFails fs (l1 ++ l2) =
  match unlinkBlobs unlinkFails fs l1 with
  | inl fs' => inl fs'
  | inr fs' => unlinkBlobs unlinkFails fs' l2
  end.
Proof.
  revert fs. induction l1 as [|song l1 IH]; intros fs; simpl; [reflexivity|].
  destruct (unlinkBlob unlinkFails fs (Song.audioFile song)); [apply IH | reflexivity].
Qed.

(** When no unlink throws, the loop runs to its end and removes exactly
    the files it looked at. *)
Lemma unlinkBlobs_completes l : forall fs : gmap string bytes,
  (forall p, p ∈ blobPaths l -> is_Some (fs !! p) -> unlinkFails p = false) ->
  exists fs' : gmap string bytes,
    unlinkBlobs unlinkFails fs l = inr fs' /\
    forall p, fs' !! p = if decide (p ∈ blobPaths l) then None else fs !! p.
Proof.
  induction l as [|song l IH]; intros fs Hok.
  - exists fs. split; [reflexivity|]. intros p. simpl.
    destruct (decide (p ∈ [])) as [Hin|]; [|reflexivity]. now apply elem_of_nil in Hin.
  - cbn [unlinkBlobs blobPaths] in *. unfold unlinkBlob.
    destruct (Song.audioFile song) as [a|]; [|now apply IH].
    destruct (String.eqb a ""); [now apply IH|].
    destruct (fs !! blobPath a) as [data|] eqn:Hq.
    + rewrite (Hok (blobPath a)) by (rewrite ?Hq; eauto using list_elem_of_here).
      destruct (IH (base.delete (blobPath a) fs)) as (fs' & Hrun & Hfs').
      { intros p Hp Hsome. apply Hok; [now apply list_elem_of_further|].
        rewrite lookup_delete in Hsome. destruct (decide (blobPath a = p)); [|exact Hsome].
        now destruct Hsome. }
      exists fs'. split; [exact Hrun|]. intros p. rewrite Hfs'.
      rewrite lookup_delete.
      destruct (decide (p ∈ blobPaths l)) as [Hin|Hnin].
      * rewrite decide_True by now apply list_elem_of_further. reflexivity.
      * destruct (decide (blobPath a = p)) as [<-|Hne].
        -- rewrite decide_True by apply list_elem_of_here. reflexivity.
        -- rewrite decide_False; [reflexivity|].
           intros Hin. apply elem_of_cons in Hin as [->|Hin]; [now apply Hne | now apply Hnin].
    + destruct (IH fs) as (fs' & Hrun & Hfs').
      { intros p Hp. apply Hok. now apply list_elem_of_further. }
      exists fs'. split; [exact Hrun|]. intros p. rewrite Hfs'.
      destruct (decide (p ∈ blobPaths l)) as [Hin|Hnin].
      * rewrite decide_True by now apply list_elem_of_further. reflexivity.
      * destruct (decide (p ∈ blobPath a :: blobPaths l)) as [Hin|]; [|reflexivity].
        apply elem_of_cons in Hin as [->|Hin]; [exact Hq | now destruct Hnin].
Qed.

(** When unlink throws at a song, the loop ends there, with only the
    files of the songs before it removed. *)
Lemma unlinkBlobs_throws (fs : gmap string bytes) l1 song a l2 :
  (forall p, p ∈ blobPaths l1 -> is_Some (fs !! p) -> unlinkFails p = false) ->
  Song.audioFile song = Some a -> a <> "" ->
  blobPath a ∉ blobPaths l1 ->
  is_Some (fs !! blobPath a) ->
  unlinkFails (blobPath a) = true ->
  exists fs' : gmap string bytes,
    unlinkBlobs unlinkFails fs (l1 ++ song :: l2) = inl fs' /\
    forall p, fs' !! p = if decide (p ∈ blobPaths l1) then None else fs !! p.
Proof.
  intros Hok Ha Hne Hnin [data Hq] Hfail.
  destruct (unlinkBlobs_completes l1 fs Hok) as (fs' & Hrun & Hfs').
  exists fs'. split; [|exact Hfs'].
  rewrite unlinkBlobs_app, Hrun. cbn [unlinkBlobs]. unfold unlinkBlob. rewrite Ha.
  apply String.eqb_neq in Hne. rewrite Hne.
  rewrite Hfs', decide_False by exact Hnin. now rewrite Hq, Hfail.
Qed.

(** C5, as amended. In the cascade of DELETE /api/playlists/:id a song
    whose file is missing is passed over and the loop goes on: when no
    unlink throws, every file of the playlist's songs and every row of
    them is removed. An error thrown by unlinking an existing file is
    not caught inside the loop: the loop ends at that song, the answer
    is 500, all song rows stay, and only the files of the songs visited
    before are gone. *)
Theorem cascade_stops_on_unlink_error st id oid playlist :
  castObjectId id = Some oid ->
  findPlaylistById oid (playlists st) = Some playlist ->
  ((forall p, p ∈ blobPaths (songsOf oid (songs st)) ->
              is_Some (files st !! p) -> unlinkFails p = false) ->
   exists st',
     delete st id = (st', deleted) /\
     songs st' = deleteSongsOf oid (songs st) /\
     forall p, files st' !! p =
               if decide (p ∈ blobPaths (songsOf oid (songs st))) then None
               else files st !! p) /\
  (forall (l1 : list Song.t) (song : Song.t) (a : string) (l2 : list Song.t),
     songsOf oid (songs st) = (l1 ++ song :: l2)%list ->
     (forall p, p ∈ blobPaths l1 -> is_Some (files st !! p) -> unlinkFails p = false) ->
     Song.audioFile song = Some a -> a <> "" ->
     blobPath a ∉ blobPaths l1 ->
     is_Some (files st !! blobPath a) ->
     unlinkFails (blobPath a) = true ->
     exists st',
       delete st id = (st', failure UnlinkError) /\
       playlists st' = removePlaylist oid (playlists st) /\
       songs st' = songs st /\
       forall p, files st' !! p =
                 if decide (p ∈ blobPaths l1) then None else files st !! p).
Proof.
  intros Hcast Hfind. unfold delete_api_playlists_id. rewrite Hcast, Hfind.
  cbn [songs files set_playlists]. split.
  - intros Hok.
    destruct (unlinkBlobs_completes _ _ Hok) as (fs' & Hrun & Hfs').
    rewrite Hrun. eexists. split; [reflexivity|]. split; [reflexivity|exact Hfs'].
  - intros l1 song a l2 Hsplit Hok Ha Hne Hnin Hsome Hfail.
    destruct (unlinkBlobs_throws _ l1 song a l2 Hok Ha Hne Hnin Hsome Hfail)
      as (fs' & Hrun & Hfs').
    rewrite Hsplit, Hrun. eexists. split; [reflexivity|].
    split; [reflexivity|]. split; [reflexivity|exact Hfs'].
Qed.

Lemma removePlaylist_others oid l :
  List.filter (fun q => negb (N.eqb (Playlist._id q) oid)) (removePlaylist oid l) =
  List.filter (fun q => negb (N.eqb (Playlist._id q) oid)) l.
Proof.
  induction l as [|q l IH]; [reflexivity|]. simpl.
  destruct (N.eqb (Playlist._id q) oid) eqn:E; simpl; [reflexivity|].
  now rewrite E, IH.
Qed.

Lemma deleteSongsOf_others oid l :
  List.filter (fun s => negb (N.eqb (Song.playlistId s) oid)) (deleteSongsOf oid l) =
  List.filter (fun s => negb (N.eqb (Song.playlistId s) oid)) l.
Proof.
  unfold deleteSongsOf. induction l as [|s l IH]; [reflexivity|]. simpl.
  destruct (N.eqb (Song.playlistId s) oid) eqn:E; simpl; [exact IH|].
  now rewrite E, IH.
Qed.

(** Membership of a row that passes a filter is decided by the filtered
    list alone. *)
Lemma filter_same_members {A} (f : A -> bool) (l l' : list A) (x : A) :
  List.filter f l' = List.filter f l -> f x = true -> x ∈ l' <-> x ∈ l.
Proof.
  intros E Hx. rewrite !list_elem_of_In.
  split; intros Hin.
  - assert (H : In x (List.filter f l')) by (apply filter_In; auto).
    rewrite E in H. now apply filter_In in H.
  - assert (H : In x (List.filter f l)) by (apply filter_In; auto).
    rewrite <- E in H. now apply filter_In in H.
Qed.

(** C8. A successful DELETE /api/playlists/:id removes no row other than
    the playlist with that id and the songs whose [playlistId] is that
    id: the other playlists and the songs of other playlists are the
    same rows, in the same order, before and after. *)
Theorem delete_playlist_frame st id :
  status (snd (delete st id)) = 200 ->
  exists oid,
    castObjectId id = Some oid /\
    List.filter (fun q => negb (N.eqb (Playlist._id q) oid)) (playlists (fst (delete st id)))
    = List.filter (fun q => negb (N.eqb (Playlist._id q) oid)) (playlists st) /\
    List.filter (fun s => negb (N.eqb (Song.playlistId s) oid)) (songs (fst (delete st id)))
    = List.filter (fun s => negb (N.eqb (Song.playlistId s) oid)) (songs st) /\
    (forall q, Playlist._id q <> oid ->
       q ∈ playlists (fst (delete st id)) <-> q ∈ playlists st) /\
    (forall s, Song.playlistId s <> oid ->
       s ∈ songs (fst (delete st id)) <-> s ∈ songs st).
Proof.
  unfold delete_api_playlists_id.
  destruct (castObjectId id) as [oid|]; [|discriminate].
  destruct (findPlaylistById oid (playlists st)) as [playlist|]; [|discriminate].
  destruct (unlinkBlobs _ _ _) as [fs|fs]; [discriminate|].
  intros _. exists oid. cbn [fst playlists songs set_songs set_files set_playlists].
  pose proof (removePlaylist_others oid (playlists st)) as Hp.
  pose proof (deleteSongsOf_others oid (songs st)) as Hs.
  split; [reflexivity|]. split; [exact Hp|]. split; [exact Hs|]. split.
  - intros q Hq. apply (filter_same_members _ _ _ q Hp).
    now apply negb_true_iff, N.eqb_neq.
  - intros s Hsong. apply (filter_same_members _ _ _ s Hs).
    now apply negb_true_iff, N.eqb_neq.
Qed.

End Handlers.

(** * The handlers on concrete requests *)

Local Abbreviation created song := {| status := 201; body := SongJson song |}.

Lemma song_duration_format_witness :
  let req := Sample.songRequest (Some Sample.idA) (Some (Sample.track Byte.x01)) 7%N in
  let st' := fst (Sample.post Sample.emptyStore req) in
  let song := Song.mk 7%N "Foo" (Some "Bar") (Some "2:05")
                (Some "/uploads/1700000000000-7.mp3") 161%N in
  Sample.post Sample.emptyStore req = (st', created song) /\
  song ∈ songs st' /\
  Song.duration song = Some (spec_duration 125) /\
  Song.duration song = Some "2:05".
Proof.
  intros req st' song.
  assert (Hpost : Sample.post Sample.emptyStore req = (st', created song))
    by (vm_compute; reflexivity).
  split; [exact Hpost|].
  destruct (song_duration_format Sample.extname Sample.castObjectId Sample.parseFile
              Sample.emptyStore req st' song (Sample.track Byte.x01)
              {| common_title := Some "Foo"; common_artist := Some "Bar";
                 format_duration := Some 125%Q |}
              Hpost eq_refl eq_refl) as (Hin & Hspec & H125 & _).
  - vm_compute. discriminate.
  - split; [exact Hin|]. split; [exact Hspec|]. apply H125. reflexivity.
Defined.

Lemma song_title_artist_witness :
  let req := Sample.songRequest (Some Sample.idA) (Some (Sample.track Byte.x00)) 8%N in
  let st' := fst (Sample.post Sample.emptyStore req) in
  let song := Song.mk 8%N "track" (Some "Unknown Artist") (Some "0:00")
                (Some "/uploads/1700000000000-8.mp3") 161%N in
  Sample.post Sample.emptyStore req = (st', created song) /\
  song ∈ songs st' /\
  Song.title song = "track" /\ Song.artist song = Some "Unknown Artist".
Proof.
  intros req st' song.
  assert (Hpost : Sample.post Sample.emptyStore req = (st', created song))
    by (vm_compute; reflexivity).
  split; [exact Hpost|].
  destruct (song_title_artist Sample.extname Sample.castObjectId Sample.parseFile
              Sample.emptyStore req st' song (Sample.track Byte.x00)
              {| common_title := None; common_artist := None; format_duration := None |}
              Hpost eq_refl eq_refl) as (Hin & _ & _ & _ & _ & _ & Htrack).
  split; [exact Hin|]. apply Htrack; reflexivity.
Defined.

(** An extracted title and artist that are present but empty are not
    what is stored: the row gets the file name and ["Unknown Artist"]. *)
Lemma empty_tags_counterexample :
  let file := Sample.track Byte.x02 in
  let req := Sample.songRequest (Some Sample.idA) (Some file) 8%N in
  exists st' song md,
    Sample.post Sample.emptyStore req = (st', created song) /\
    Sample.parseFile (content file) = Some md /\
    common_title md = Some "" /\ Song.title song = "track" /\ Song.title song <> "" /\
    common_artist md = Some "" /\ Song.artist song = Some "Unknown Artist" /\
    Song.artist song <> Some "".
Proof.
  intros file req.
  exists (fst (Sample.post Sample.emptyStore req)).
  exists (Song.mk 8%N "track" (Some "Unknown Artist") (Some "0:00")
            (Some "/uploads/1700000000000-8.mp3") 161%N).
  exists {| common_title := Some ""; common_artist := Some ""; format_duration := None |}.
  split; [vm_compute; reflexivity|].
  repeat split; try reflexivity; discriminate.
Qed.

Lemma song_playlist_unchecked_witness :
  let req := Sample.songRequest (Some Sample.idB) (Some (Sample.track Byte.x03)) 4%N in
  let st' := fst (Sample.post Sample.library req) in
  let song := Song.mk 4%N "track" (Some "Unknown Artist") (Some "0:30")
                (Some "/uploads/1700000000000-4.mp3") 178%N in
  Sample.post Sample.library req = (st', created song) /\
  Sample.castObjectId Sample.idB = Some (Song.playlistId song) /\
  playlists st' = playlists Sample.library /\
  Sample.post (set_playlists Sample.library []) req = (set_playlists st' [], created song).
Proof.
  intros req st' song.
  assert (Hpost : Sample.post Sample.library req = (st', created song))
    by (vm_compute; reflexivity).
  split; [exact Hpost|].
  destruct (song_playlist_unchecked Sample.extname Sample.castObjectId Sample.parseFile
              Sample.library req st' song Hpost) as ((p & Hp & Hcast) & Hsame & Hany).
  injection Hp as <-.
  split; [exact Hcast|]. split; [exact Hsame|]. apply Hany.
Defined.

(** A song is created for a playlist id that names no playlist. *)
Lemma orphan_song_counterexample :
  let req := Sample.songRequest (Some Sample.idB) (Some (Sample.track Byte.x03)) 4%N in
  exists st' song,
    Sample.post Sample.emptyStore req = (st', created song) /\
    song ∈ songs st' /\
    playlists st' = [] /\
    findPlaylistById (Song.playlistId song) (playlists st') = None.
Proof.
  intros req.
  exists (fst (Sample.post Sample.emptyStore req)).
  exists (Song.mk 4%N "track" (Some "Unknown Artist") (Some "0:30")
            (Some "/uploads/1700000000000-4.mp3") 178%N).
  split; [vm_compute; reflexivity|].
  split; [|split; reflexivity].
  apply list_elem_of_In. vm_compute. left. reflexivity.
Qed.


Lemma extractor_failure_orphans_blob_witness :
  let req := Sample.songRequest (Some Sample.idA) (Some Sample.broken) 9%N in
  let r := Sample.post Sample.library req in
  fileFilter Sample.extname Sample.broken = true /\
  Sample.parseFile (content Sample.broken) = None /\
  status (snd r) = 500 /\
  songs (fst r) = songs Sample.library /\
  files (fst r) !! "uploads/1700000000000-9.mp3" = Some (content Sample.broken).
Proof.
  intros req r. split; [reflexivity|]. split; [reflexivity|].
  destruct (extractor_failure_orphans_blob Sample.extname Sample.castObjectId
              Sample.parseFile Sample.library req Sample.broken eq_refl eq_refl)
    as (_ & Hstatus & Hsongs & Hfile).
  - vm_compute. discriminate.
  - reflexivity.
  - split; [exact Hstatus|]. split; [exact Hsongs|]. exact Hfile.
Defined.

Lemma bad_playlistId_orphans_blob_witness :
  let file := Sample.track Byte.x01 in
  let req := Sample.songRequest (Some "not-an-id") (Some file) 9%N in
  let r := Sample.post Sample.library req in
  Sample.castObjectId "not-an-id" = None /\
  status (snd r) = 500 /\
  songs (fst r) = songs Sample.library /\
  files (fst r) !! "uploads/1700000000000-9.mp3" = Some (content file).
Proof.
  intros file req r. split; [reflexivity|].
  destruct (bad_playlistId_orphans_blob Sample.extname Sample.castObjectId
              Sample.parseFile Sample.library req file
              {| common_title := Some "Foo"; common_artist := Some "Bar";
                 format_duration := Some 125%Q |} eq_refl eq_refl)
    as (_ & Hstatus & Hsongs & Hfile).
  - vm_compute. discriminate.
  - reflexivity.
  - right. exists "not-an-id". split; reflexivity.
  - split; [exact Hstatus|]. split; [exact Hsongs|]. exact Hfile.
Defined.

Lemma malformed_id_is_500_witness :
  Sample.castObjectId "42" = None /\
  get_api_playlists_id Sample.castObjectId Sample.library "42"
  = {| status := 500; body := ErrorJson CastError |} /\
  status (get_api_playlists_id Sample.castObjectId Sample.library
            "0000000000000000000000c3") = 404.
Proof.
  split; [reflexivity|].
  split.
  - apply (malformed_id_is_500 Sample.castObjectId Sample.library "42"). reflexivity.
  - apply (proj2 (malformed_id_is_500 Sample.castObjectId Sample.library
                    "0000000000000000000000c3") 195%N); reflexivity.
Defined.

Lemma cascade_stops_on_unlink_error_witness :
  let fails := Sample.unlinkFailsOn "uploads/a.mp3" in
  Sample.castObjectId Sample.idA = Some 161%N /\
  findPlaylistById 161%N (playlists Sample.library) = Some Sample.roadTrip /\
  exists st',
    delete_api_playlists_id Sample.castObjectId fails Sample.library Sample.idA
    = (st', failure UnlinkError) /\
    playlists st' = [Sample.evening] /\
    songs st' = songs Sample.library /\
    files st' !! "uploads/b.mp3" = files Sample.library !! "uploads/b.mp3".
Proof.
  intros fails. split; [reflexivity|]. split; [reflexivity|].
  destruct (cascade_stops_on_unlink_error Sample.castObjectId fails
              Sample.library Sample.idA 161%N Sample.roadTrip eq_refl eq_refl)
    as [_ Hthrow].
  destruct (Hthrow [] Sample.song1 "/uploads/a.mp3" [Sample.song2])
    as (st' & Hrun & Hpl & Hsongs & Hfiles).
  - reflexivity.
  - intros p Hp. now apply elem_of_nil in Hp.
  - reflexivity.
  - discriminate.
  - apply not_elem_of_nil.
  - vm_compute. eauto.
  - reflexivity.
  - exists st'. split; [exact Hrun|]. split; [exact Hpl|]. split; [exact Hsongs|].
    rewrite Hfiles. cbn [blobPaths].
    destruct (decide ("uploads/b.mp3" ∈ [])) as [Hin|]; [|reflexivity].
    now apply elem_of_nil in Hin.
Defined.

(** One file that cannot be unlinked ends the cascade: the answer is 500,
    the file of the next song is still on disk although unlinking it
    would not fail, and the song rows of the deleted playlist remain. *)
Lemma cascade_counterexample :
  let fails := Sample.unlinkFailsOn "uploads/a.mp3" in
  let r := delete_api_playlists_id Sample.castObjectId fails Sample.library Sample.idA in
  songsOf 161%N (songs Sample.library) = [Sample.song1; Sample.song2] /\
  fails "uploads/b.mp3" = false /\
  status (snd r) = 500 /\
  files (fst r) !! "uploads/b.mp3" = Some [Byte.x01] /\
  songs (fst r) = [Sample.song1; Sample.song2; Sample.song3] /\
  playlists (fst r) = [Sample.evening].
Proof.
  intros fails r. repeat split; vm_compute; reflexivity.
Qed.

Lemma delete_playlist_frame_witness :
  let r := delete_api_playlists_id Sample.castObjectId Sample.unlinkNeverFails
             Sample.library Sample.idA in
  status (snd r) = 200 /\
  Sample.evening ∈ playlists (fst r) /\
  Sample.song3 ∈ songs (fst r).
Proof.
  intros r.
  assert (Hok : status (snd r) = 200) by (vm_compute; reflexivity).
  split; [exact Hok|].
  destruct (delete_playlist_frame Sample.castObjectId Sample.unlinkNeverFails
              Sample.library Sample.idA Hok) as (oid & Hcast & _ & _ & Hpl & Hsongs).
  assert (oid = 161%N) as -> by (vm_compute in Hcast; congruence).
  split.
  - apply Hpl; [discriminate|]. apply list_elem_of_In. simpl. auto.
  - apply Hsongs; [discriminate|]. apply list_elem_of_In. simpl. auto.
Defined.

(** * Beyond the claims: the remaining handlers and the browser client *)

(** ** Collections keyed by [_id] *)

Section Collections.

Context {A : Type} (key : A -> ObjectId).

Lemma elem_of_bfilter (f : A -> bool) (l : list A) (x : A) :
  x ∈ List.filter f l <-> x ∈ l /\ f x = true.
Proof. rewrite !list_elem_of_In. apply filter_In. Qed.

Lemma bfilter_all (f : A -> bool) (l : list A) :
  (forall x, x ∈ l -> f x = true) -> List.filter f l = l.
Proof.
  induction l as [|x l IH]; intros Hall; [reflexivity|]. simpl.
  rewrite (Hall x) by apply list_elem_of_here.
  f_equal. apply IH. intros y Hy. apply Hall. now apply list_elem_of_further.
Qed.

Lemma bfilter_comm (f g : A -> bool) (l : list A) :
  List.filter f (List.filter g l) = List.filter g (List.filter f l).
Proof.
  induction l as [|x l IH]; [reflexivity|]. simpl.
  destruct (g x) eqn:Hg, (f x) eqn:Hf; simpl; rewrite ?Hg, ?Hf, IH; reflexivity.
Qed.

Lemma NoDup_key_bfilter (f : A -> bool) (l : list A) :
  NoDup (key <$> l) -> NoDup (key <$> List.filter f l).
Proof.
  induction l as [|x l IH]; [trivial|]. cbn [fmap list_fmap List.filter].
  intros Hnd. apply NoDup_cons in Hnd as [Hx Hnd].
  destruct (f x); [|now apply IH].
  cbn [fmap list_fmap]. apply NoDup_cons. split; [|now apply IH].
  intros Hin. apply Hx.
  apply list_elem_of_fmap in Hin as (y & Hy & Hin).
  apply elem_of_bfilter in Hin as [Hin _].
  apply list_elem_of_fmap. eauto.
Qed.

Lemma find_by_Some (oid : ObjectId) (l : list A) (x : A) :
  List.find (fun y => N.eqb (key y) oid) l = Some x -> x ∈ l /\ key x = oid.
Proof.
  intros H. apply find_some in H as [Hin Hkey].
  split; [now apply list_elem_of_In | now apply N.eqb_eq].
Qed.

Lemma find_by_None (oid : ObjectId) (l : list A) :
  List.find (fun y => N.eqb (key y) oid) l = None <-> oid ∉ key <$> l.
Proof.
  induction l as [|x l IH]; simpl.
  - split; [intros _; apply not_elem_of_nil | reflexivity].
  - destruct (N.eqb_spec (key x) oid) as [E|E].
    + split; [discriminate|]. intros H. exfalso. apply H. rewrite E. apply list_elem_of_here.
    + rewrite IH. rewrite not_elem_of_cons. split; [auto | tauto].
Qed.

Lemma find_by_app (oid : ObjectId) (l l' : list A) :
  List.find (fun y => N.eqb (key y) oid) (l ++ l') =
  match List.find (fun y => N.eqb (key y) oid) l with
  | Some x => Some x
  | None => List.find (fun y => N.eqb (key y) oid) l'
  end.
Proof.
  induction l as [|x l IH]; [reflexivity|]. simpl.
  destruct (N.eqb (key x) oid); [reflexivity | exact IH].
Qed.

(** With unique ids a document that is found is the only one with its
    id. *)
Lemma find_by_unique (oid : ObjectId) (l : list A) (x : A) :
  NoDup (key <$> l) -> x ∈ l -> key x = oid ->
  List.find (fun y => N.eqb (key y) oid) l = Some x.
Proof.
  induction l as [|y l IH]; intros Hnd Hin Hkey.
  - now apply elem_of_nil in Hin.
  - cbn [fmap list_fmap] in Hnd. apply NoDup_cons in Hnd as [Hy Hnd]. simpl.
    apply elem_of_cons in Hin as [<-|Hin].
    + apply N.eqb_eq in Hkey. now rewrite Hkey.
    + destruct (N.eqb_spec (key y) oid) as [E|E]; [|now apply IH].
      exfalso. apply Hy. rewrite E, <- Hkey. now apply list_elem_of_fmap_2.
Qed.

(** No document with the id is left once the documents with that id are
    filtered out. *)
Lemma find_by_filtered (oid : ObjectId) (l : list A) :
  List.find (fun y => N.eqb (key y) oid)
    (List.filter (fun y => negb (N.eqb (key y) oid)) l) = None.
Proof.
  apply find_by_None. intros Hin.
  apply list_elem_of_fmap in Hin as (y & Hy & Hin).
  apply elem_of_bfilter in Hin as [_ Hne].
  apply negb_true_iff, N.eqb_neq in Hne. congruence.
Qed.

End Collections.

Lemma removePlaylist_filter (oid : ObjectId) (l : list Playlist.t) :
  NoDup (Playlist._id <$> l) ->
  removePlaylist oid l = List.filter (fun q => negb (N.eqb (Playlist._id q) oid)) l.
Proof.
  induction l as [|p l IH]; [reflexivity|]. cbn [fmap list_fmap].
  intros Hnd. apply NoDup_cons in Hnd as [Hp Hnd]. simpl.
  destruct (N.eqb_spec (Playlist._id p) oid) as [E|E]; simpl.
  - symmetry. apply bfilter_all. intros q Hq.
    apply negb_true_iff, N.eqb_neq. intros Eq. apply Hp.
    rewrite E, <- Eq. now apply list_elem_of_fmap_2.
  - f_equal. now apply IH.
Qed.

Lemma removeSong_filter (oid : ObjectId) (l : list Song.t) :
  NoDup (Song._id <$> l) ->
  removeSong oid l = List.filter (fun s => negb (N.eqb (Song._id s) oid)) l.
Proof.
  induction l as [|p l IH]; [reflexivity|]. cbn [fmap list_fmap].
  intros Hnd. apply NoDup_cons in Hnd as [Hp Hnd]. simpl.
  destruct (N.eqb_spec (Song._id p) oid) as [E|E]; simpl.
  - symmetry. apply bfilter_all. intros q Hq.
    apply negb_true_iff, N.eqb_neq. intros Eq. apply Hp.
    rewrite E, <- Eq. now apply list_elem_of_fmap_2.
  - f_equal. now apply IH.
Qed.

(** Removing by an id that no document has changes nothing. *)
Lemma removePlaylist_absent (oid : ObjectId) (l : list Playlist.t) :
  findPlaylistById oid l = None -> removePlaylist oid l = l.
Proof.
  unfold findPlaylistById. induction l as [|p l IH]; [reflexivity|]. simpl.
  destruct (N.eqb (Playlist._id p) oid); [discriminate|].
  intros H. f_equal. now apply IH.
Qed.

Lemma removeSong_absent (oid : ObjectId) (l : list Song.t) :
  findSongById oid l = None -> removeSong oid l = l.
Proof.
  unfold findSongById. induction l as [|p l IH]; [reflexivity|]. simpl.
  destruct (N.eqb (Song._id p) oid); [discriminate|].
  intros H. f_equal. now apply IH.
Qed.

(** Removing the document that was appended last gives the list back. *)
Lemma removePlaylist_last (l : list Playlist.t) (p : Playlist.t) :
  findPlaylistById (Playlist._id p) l = None ->
  removePlaylist (Playlist._id p) (l ++ [p]) = l.
Proof.
  unfold findPlaylistById. induction l as [|q l IH]; simpl.
  - now rewrite N.eqb_refl.
  - destruct (N.eqb (Playlist._id q) (Playlist._id p)); [discriminate|].
    intros H. f_equal. now apply IH.
Qed.

Lemma removeSong_last (l : list Song.t) (s : Song.t) :
  findSongById (Song._id s) l = None ->
  removeSong (Song._id s) (l ++ [s]) = l.
Proof.
  unfold findSongById. induction l as [|q l IH]; simpl.
  - now rewrite N.eqb_refl.
  - destruct (N.eqb (Song._id q) (Song._id s)); [discriminate|].
    intros H. f_equal. now apply IH.
Qed.

(** ** The server as a whole *)

Lemma sortByCreatedAtDesc_sorted (l : list Playlist.t) :
  StronglySorted newer_first (sortByCreatedAtDesc l).
Proof.
  unfold sortByCreatedAtDesc.
  apply StronglySorted_merge_sort; [exact newer_first_trans | exact newer_first_total].
Qed.

Lemma sortByCreatedAtDesc_perm (l : list Playlist.t) : sortByCreatedAtDesc l ≡ₚ l.
Proof. apply merge_sort_Permutation. Qed.

Section Service.

Variable extname : string -> string.
Variable castObjectId : string -> option ObjectId.
Variable parseFile : bytes -> option Metadata.
Variable unlinkFails : string -> bool.

Local Abbreviation post := (post_api_songs extname castObjectId parseFile).
Local Abbreviation get := (get_api_playlists_id castObjectId).
Local Abbreviation deletePlaylist := (delete_api_playlists_id castObjectId unlinkFails).
Local Abbreviation deleteSong := (delete_api_songs_id castObjectId unlinkFails).
Local Abbreviation clearAll := (delete_api_clear_all unlinkFails).
Local Abbreviation created song := {| status := 201; body := SongJson song |}.
Local Abbreviation notFound msg := {| status := 404; body := ErrorText msg |}.

(** Whatever the outcome, POST /api/songs leaves the playlists alone,
    adds at most one row at the end of the songs, and writes at most the
    one file it stores. *)
Lemma post_effect st req :
  playlists (fst (post st req)) = playlists st /\
  (songs (fst (post st req)) = songs st \/
   exists song, snd (post st req) = created song /\
                findSongById (Song._id song) (songs st) = None /\
                songs (fst (post st req)) = (songs st ++ [song])%list) /\
  (files (fst (post st req)) = files st \/
   exists file, req_file req = Some file /\
                files (fst (post st req))
                = <["uploads/" ++ storedName extname req file := content file]> (files st)).
Proof.
  unfold post_api_songs, upload.
  destruct (req_file req) as [file|]; [|simpl; auto].
  destruct (negb (fileFilter extname file)); [simpl; auto|].
  destruct (fileSizeLimit <? _)%Z; [simpl; auto|].
  assert (Hstored : exists file0, Some file = Some file0 /\
            files (uploaded extname st req file)
            = <["uploads/" ++ storedName extname req file0 := content file0]> (files st))
    by (exists file; split; reflexivity).
  destruct (_ ≫= parseFile) as [md|]; [|simpl; auto].
  destruct (newSong _ _ _ _ _ _ _) as [song|]; [|simpl; auto].
  destruct (findSongById _ _) eqn:Hfresh; [simpl; auto|].
  simpl. split; [reflexivity|]. split; [|auto].
  right. exists song. auto.
Qed.

Lemma NoDup_ids_snoc {A} (key : A -> ObjectId) (l : list A) (x : A) :
  NoDup (key <$> l) ->
  List.find (fun y => N.eqb (key y) (key x)) l = None ->
  NoDup (key <$> (l ++ [x])%list).
Proof.
  intros Hnd Hfresh. rewrite fmap_app. apply NoDup_app.
  split; [exact Hnd|]. split.
  - intros k Hk Hin. apply list_elem_of_singleton in Hin. subst k.
    now apply (find_by_None key) in Hfresh.
  - apply NoDup_singleton.
Qed.

(** X1. Every handler that writes keeps the ids of each collection
    pairwise distinct. *)
Theorem handlers_keep_ids_unique st :
  uniqueIds st ->
  (forall req, uniqueIds (fst (post_api_playlists st req))) /\
  (forall req, uniqueIds (fst (post st req))) /\
  (forall id, uniqueIds (fst (deletePlaylist st id))) /\
  (forall id, uniqueIds (fst (deleteSong st id))) /\
  uniqueIds (fst (clearAll st)).
Proof.
  intros [Hpl Hsongs]. repeat split.
  - unfold post_api_playlists.
    destruct (body_name req) as [n|]; [|exact Hpl].
    destruct (String.eqb n ""); [exact Hpl|].
    destruct (findPlaylistById _ _) eqn:Hfresh; [exact Hpl|].
    simpl. now apply NoDup_ids_snoc.
  - unfold post_api_playlists.
    destruct (body_name req) as [n|]; [|exact Hsongs].
    destruct (String.eqb n ""); [exact Hsongs|].
    destruct (findPlaylistById _ _); exact Hsongs.
  - destruct (post_effect st req) as (-> & _ & _). exact Hpl.
  - destruct (post_effect st req) as (_ & [-> | (song & _ & Hfresh & ->)] & _);
      [exact Hsongs | now apply NoDup_ids_snoc].
  - unfold delete_api_playlists_id.
    destruct (castObjectId id) as [oid|]; [|exact Hpl].
    destruct (findPlaylistById oid _); [|exact Hpl].
    assert (Hrm : NoDup (Playlist._id <$> removePlaylist oid (playlists st)))
      by (rewrite removePlaylist_filter by exact Hpl; now apply NoDup_key_bfilter).
    destruct (unlinkBlobs _ _ _); exact Hrm.
  - unfold delete_api_playlists_id.
    destruct (castObjectId id) as [oid|]; [|exact Hsongs].
    destruct (findPlaylistById oid _); [|exact Hsongs].
    destruct (unlinkBlobs _ _ _); [exact Hsongs|].
    simpl. now apply NoDup_key_bfilter.
  - unfold delete_api_songs_id.
    destruct (castObjectId id) as [oid|]; [|exact Hpl].
    destruct (findSongById oid _); [|exact Hpl].
    destruct (unlinkBlob _ _ _); exact Hpl.
  - unfold delete_api_songs_id.
    destruct (castObjectId id) as [oid|]; [|exact Hsongs].
    destruct (findSongById oid _); [|exact Hsongs].
    assert (Hrm : NoDup (Song._id <$> removeSong oid (songs st)))
      by (rewrite removeSong_filter by exact Hsongs; now apply NoDup_key_bfilter).
    destruct (unlinkBlob _ _ _); exact Hrm.
  - unfold delete_api_clear_all. destruct (unlinkFiles _ _ _); apply NoDup_nil_2.
  - unfold delete_api_clear_all. destruct (unlinkFiles _ _ _); apply NoDup_nil_2.
Qed.

(** What a 201 answer of POST /api/playlists tells about the request. *)
Lemma playlist_created st req st' p :
  post_api_playlists st req = (st', {| status := 201; body := PlaylistJson p |}) ->
  findPlaylistById (Playlist._id p) (playlists st) = None /\
  Playlist._id p = playlist_id req /\ Playlist.createdAt p = now req /\
  body_name req = Some (Playlist.name p) /\ Playlist.name p <> "" /\
  Playlist.creator p = body_creator req /\
  st' = set_playlists st (playlists st ++ [p]).
Proof.
  unfold post_api_playlists.
  destruct (body_name req) as [n|]; [|discriminate].
  destruct (String.eqb_spec n ""); [discriminate|].
  destruct (findPlaylistById _ _) eqn:Hfresh; [discriminate|].
  intros H. injection H as <- <-. simpl. auto 10.
Qed.

Lemma songsOf_none (oid : ObjectId) (l : list Song.t) :
  (forall s, s ∈ l -> Song.playlistId s <> oid) -> songsOf oid l = [].
Proof.
  unfold songsOf. induction l as [|s l IH]; intros H; [reflexivity|]. simpl.
  destruct (N.eqb_spec (Song.playlistId s) oid) as [E|_].
  - exfalso. exact (H s (list_elem_of_here _ _) E).
  - apply IH. intros x Hx. apply H. now apply list_elem_of_further.
Qed.

Lemma deleteSongsOf_none (oid : ObjectId) (l : list Song.t) :
  (forall s, s ∈ l -> Song.playlistId s <> oid) -> deleteSongsOf oid l = l.
Proof.
  intros H. apply bfilter_all. intros s Hs.
  now apply negb_true_iff, N.eqb_neq, H.
Qed.

(** X2. A playlist that has just been created is found under its id,
    together with the songs that already carried that id as their
    [playlistId]; when no song did, its list of songs is empty. *)
Theorem created_playlist_is_found st req st' p id :
  post_api_playlists st req = (st', {| status := 201; body := PlaylistJson p |}) ->
  castObjectId id = Some (Playlist._id p) ->
  get st' id = json (DetailsJson p (songsOf (Playlist._id p) (songs st))) /\
  ((forall s, s ∈ songs st -> Song.playlistId s <> Playlist._id p) ->
   get st' id = json (DetailsJson p [])).
Proof.
  intros Hpost Hcast.
  apply playlist_created in Hpost as (Hfresh & _ & _ & _ & _ & _ & ->).
  assert (E : get (set_playlists st (playlists st ++ [p])) id
              = json (DetailsJson p (songsOf (Playlist._id p) (songs st)))).
  { unfold get_api_playlists_id. rewrite Hcast. cbn [playlists set_playlists].
    unfold findPlaylistById in *. rewrite find_by_app, Hfresh. simpl.
    now rewrite N.eqb_refl. }
  split; [exact E|]. intros Hnone. rewrite E. now rewrite songsOf_none.
Qed.

(** X3. A playlist created later than every playlist in the store is the
    first of the next GET /api/playlists, followed by the earlier
    ones. *)
Theorem new_playlist_listed_first st req st' p :
  post_api_playlists st req = (st', {| status := 201; body := PlaylistJson p |}) ->
  (forall q, q ∈ playlists st -> (Playlist.createdAt q < now req)%Z) ->
  exists rest,
    get_api_playlists st' = json (PlaylistsJson (p :: rest)) /\
    rest ≡ₚ playlists st.
Proof.
  intros Hpost Hnewest.
  apply playlist_created in Hpost as (_ & _ & Hnow & _ & _ & _ & ->).
  unfold get_api_playlists. cbn [playlists set_playlists].
  pose proof (sortByCreatedAtDesc_perm (playlists st ++ [p])) as Hperm.
  pose proof (sortByCreatedAtDesc_sorted (playlists st ++ [p])) as Hsorted.
  destruct (sortByCreatedAtDesc (playlists st ++ [p])) as [|h rest] eqn:Hl.
  - apply Permutation_nil_l in Hperm. now destruct (playlists st).
  - assert (Hp : p ∈ h :: rest)
      by (rewrite Hperm; apply elem_of_app; right; apply list_elem_of_here).
    assert (Hh : h ∈ (playlists st ++ [p])%list)
      by (rewrite <- Hperm; apply list_elem_of_here).
    assert (h = p) as ->.
    { apply elem_of_app in Hh as [Hold|Hh]; [|now apply list_elem_of_singleton in Hh].
      exfalso. specialize (Hnewest h Hold).
      apply elem_of_cons in Hp as [->|Hp]; [lia|].
      apply StronglySorted_inv in Hsorted as [_ Hall].
      rewrite Forall_forall in Hall. specialize (Hall p Hp).
      unfold newer_first in Hall. lia. }
    exists rest. split; [reflexivity|].
    rewrite (Permutation_app_comm (playlists st) [p]) in Hperm.
    now apply Permutation_cons_inv in Hperm.
Qed.

(** X4. A song that has just been added is the last of the songs that
    GET /api/playlists/:id answers for its playlist, after the songs
    answered before. *)
Theorem added_song_is_listed st req st' song id p :
  post st req = (st', created song) ->
  body_playlistId req = Some id ->
  findPlaylistById (Song.playlistId song) (playlists st) = Some p ->
  get st id = json (DetailsJson p (songsOf (Song.playlistId song) (songs st))) /\
  get st' id
  = json (DetailsJson p (songsOf (Song.playlistId song) (songs st) ++ [song])%list).
Proof.
  intros Hpost Hid Hfind.
  apply post_created in Hpost as (file & md & id' & oid & H).
  destruct H as (_ & _ & _ & _ & Hid' & Hcast & _ & _ & Hsong & ->).
  assert (id' = id) as -> by congruence.
  assert (Hoid : Song.playlistId song = oid) by (rewrite Hsong; reflexivity).
  rewrite Hoid in *. unfold get_api_playlists_id. rewrite Hcast.
  cbn [playlists songs set_songs uploaded set_files]. rewrite Hfind.
  split; [reflexivity|]. unfold songsOf. rewrite List.filter_app. simpl.
  rewrite Hoid, N.eqb_refl. reflexivity.
Qed.

(** X5. Whatever it answers, POST /api/songs changes no playlist, keeps
    every song row in place, adds a row only with a 201, and leaves every
    file alone except the one stored under the generated name. *)
Theorem upload_touches_nothing_else st req :
  playlists (fst (post st req)) = playlists st /\
  (exists l, songs (fst (post st req)) = (songs st ++ l)%list /\ length l <= 1) /\
  (status (snd (post st req)) <> 201 -> songs (fst (post st req)) = songs st) /\
  (forall path,
     (forall file, req_file req = Some file ->
                   path <> "uploads/" ++ storedName extname req file) ->
     files (fst (post st req)) !! path = files st !! path).
Proof.
  destruct (post_effect st req) as (Hpl & Hsongs & Hfiles).
  split; [exact Hpl|]. split; [|split].
  - destruct Hsongs as [-> | (song & _ & _ & ->)].
    + exists []. rewrite app_nil_r. auto.
    + exists [song]. auto.
  - intros Hstatus. destruct Hsongs as [-> | (song & Hres & _)]; [reflexivity|].
    rewrite Hres in Hstatus. now destruct Hstatus.
  - intros path Hpath. destruct Hfiles as [-> | (file & Hfile & ->)]; [reflexivity|].
    apply lookup_insert_ne. intros E. now apply (Hpath file Hfile).
Qed.

Lemma store_eta (st : Store) :
  {| playlists := playlists st; songs := songs st; files := files st |} = st.
Proof. now destruct st. Qed.

(** The cleanup of one song when its unlink does not throw: the file of
    the song is gone afterwards and no other path is touched. *)
Lemma unlinkBlob_succeeds (fs : gmap string bytes) (audioFile : option string) :
  (forall a, audioFile = Some a -> unlinkFails (blobPath a) = false) ->
  exists fs' : gmap string bytes,
    unlinkBlob unlinkFails fs audioFile = Some fs' /\
    (forall a, audioFile = Some a -> a <> "" -> fs' = base.delete (blobPath a) fs) /\
    (audioFile = None \/ audioFile = Some "" -> fs' = fs).
Proof.
  intros Hok. unfold unlinkBlob. destruct audioFile as [a|].
  - destruct (String.eqb_spec a "") as [->|Hne].
    + exists fs. split; [reflexivity|]. split; [intros a [= <-] Ha; now destruct Ha | auto].
    + destruct (fs !! blobPath a) eqn:Hq.
      * rewrite (Hok a eq_refl). eexists. split; [reflexivity|].
        split; [now intros a' [= <-] _ | intros [H|[= ->]]; [discriminate | now destruct Hne]].
      * exists fs. split; [reflexivity|].
        split; [intros a' [= <-] _; now rewrite delete_id
               | intros [H|[= ->]]; [discriminate | now destruct Hne]].
  - exists fs. split; [reflexivity|]. split; [discriminate | auto].
Qed.

(** X6. Deleting the song that has just been added gives back the store
    from before the upload, rows and files alike, when the generated file
    name was free and the unlink does not throw. *)
Theorem add_then_delete_restores st req st' song id :
  post st req = (st', created song) ->
  castObjectId id = Some (Song._id song) ->
  (forall a, Song.audioFile song = Some a -> files st !! blobPath a = None) ->
  (forall a, Song.audioFile song = Some a -> unlinkFails (blobPath a) = false) ->
  deleteSong st' id = (st, json (MessageJson "Song deleted successfully")).
Proof.
  intros Hpost Hcast Hfree Hok.
  apply post_created in Hpost as (file & md & p & oid & H).
  destruct H as (_ & _ & _ & _ & _ & _ & Hfresh & _ & Hsong & ->).
  assert (Hid : Song._id song = song_id req) by (rewrite Hsong; reflexivity).
  assert (Haudio : Song.audioFile song = Some ("/uploads/" ++ storedName extname req file))
    by (rewrite Hsong; reflexivity).
  specialize (Hfree _ Haudio). specialize (Hok _ Haudio).
  change (blobPath ("/uploads/" ++ storedName extname req file))
    with ("uploads/" ++ storedName extname req file) in Hfree, Hok.
  rewrite <- Hid in Hfresh.
  assert (Hfind : findSongById (Song._id song) (songs st ++ [song]) = Some song).
  { unfold findSongById in *. rewrite find_by_app, Hfresh. simpl.
    now rewrite N.eqb_refl. }
  unfold delete_api_songs_id. rewrite Hcast. cbn [songs set_songs uploaded set_files].
  rewrite Hfind, removeSong_last by exact Hfresh.
  unfold unlinkBlob. rewrite Haudio.
  change (blobPath ("/uploads/" ++ storedName extname req file))
    with ("uploads/" ++ storedName extname req file).
  destruct (String.eqb_spec ("/uploads/" ++ storedName extname req file) "") as [E|_];
    [discriminate E|].
  unfold uploaded, set_files, set_songs. cbn [files playlists songs].
  rewrite lookup_insert_eq, Hok, delete_insert_eq, delete_id by exact Hfree.
  now rewrite store_eta.
Qed.

(** X7. Deleting the playlist that has just been created gives back the
    store from before, when no song row carried the id of the new
    playlist. *)
Theorem create_then_delete_restores st req st' p id :
  post_api_playlists st req = (st', {| status := 201; body := PlaylistJson p |}) ->
  castObjectId id = Some (Playlist._id p) ->
  (forall s, s ∈ songs st -> Song.playlistId s <> Playlist._id p) ->
  deletePlaylist st' id
  = (st, json (MessageJson "Playlist and all songs deleted successfully")).
Proof.
  intros Hpost Hcast Hnone.
  apply playlist_created in Hpost as (Hfresh & _ & _ & _ & _ & _ & ->).
  unfold delete_api_playlists_id. rewrite Hcast. cbn [playlists songs set_playlists].
  assert (Hfind : findPlaylistById (Playlist._id p) (playlists st ++ [p]) = Some p).
  { unfold findPlaylistById in *. rewrite find_by_app, Hfresh. simpl.
    now rewrite N.eqb_refl. }
  rewrite Hfind, removePlaylist_last by exact Hfresh.
  rewrite songsOf_none by exact Hnone. cbn [unlinkBlobs].
  unfold set_songs, set_files, set_playlists. cbn [playlists songs files].
  rewrite deleteSongsOf_none by exact Hnone. now rewrite store_eta.
Qed.

Lemma findSongById_removed (oid : ObjectId) (l : list Song.t) :
  NoDup (Song._id <$> l) -> findSongById oid (removeSong oid l) = None.
Proof.
  intros Hnd. rewrite removeSong_filter by exact Hnd. apply (find_by_filtered Song._id).
Qed.

Lemma findPlaylistById_removed (oid : ObjectId) (l : list Playlist.t) :
  NoDup (Playlist._id <$> l) -> findPlaylistById oid (removePlaylist oid l) = None.
Proof.
  intros Hnd. rewrite removePlaylist_filter by exact Hnd.
  apply (find_by_filtered Playlist._id).
Qed.

(** X8. With unique ids, deleting a song answers 200 the first time and
    404 the second time, and the second request changes nothing. The
    first one removes that row and the file of that row, and nothing
    else. *)
Theorem delete_song_twice st id oid song :
  uniqueIds st ->
  castObjectId id = Some oid ->
  findSongById oid (songs st) = Some song ->
  (forall a, Song.audioFile song = Some a -> unlinkFails (blobPath a) = false) ->
  snd (deleteSong st id) = json (MessageJson "Song deleted successfully") /\
  deleteSong (fst (deleteSong st id)) id
  = (fst (deleteSong st id), notFound "Song not found") /\
  playlists (fst (deleteSong st id)) = playlists st /\
  songs (fst (deleteSong st id))
  = List.filter (fun s => negb (N.eqb (Song._id s) oid)) (songs st) /\
  (forall a, Song.audioFile song = Some a -> a <> "" ->
     files (fst (deleteSong st id)) !! blobPath a = None) /\
  (forall path, (forall a, Song.audioFile song = Some a -> path <> blobPath a) ->
     files (fst (deleteSong st id)) !! path = files st !! path).
Proof.
  intros [_ Hnd] Hcast Hfind Hok.
  destruct (unlinkBlob_succeeds (files st) (Song.audioFile song) Hok)
    as (fs' & Hrun & Hgone & Hsame).
  assert (E : deleteSong st id
              = (set_files (set_songs st (removeSong oid (songs st))) fs',
                 json (MessageJson "Song deleted successfully"))).
  { unfold delete_api_songs_id. rewrite Hcast, Hfind.
    cbn [files set_songs]. now rewrite Hrun. }
  rewrite E. cbn [fst snd]. split; [reflexivity|]. split; [|split; [|split; [|split]]].
  - unfold delete_api_songs_id. rewrite Hcast. cbn [songs set_files set_songs].
    now rewrite findSongById_removed.
  - reflexivity.
  - cbn [songs set_files set_songs]. now apply removeSong_filter.
  - intros a Ha Hne. cbn [files set_files]. rewrite (Hgone a Ha Hne).
    apply lookup_delete_eq.
  - intros path Hpath. cbn [files set_files].
    destruct (Song.audioFile song) as [a|] eqn:Ha; [|now rewrite Hsame by auto].
    destruct (String.eqb_spec a "") as [->|Hne]; [now rewrite Hsame by auto|].
    rewrite (Hgone a eq_refl Hne). apply lookup_delete_ne.
    intros Eq. now apply (Hpath a eq_refl).
Qed.

(** X9. When the unlink of a song's file throws, DELETE /api/songs/:id
    answers 500 although the row is already deleted: the file stays on
    disk, and with unique ids a second request only finds 404, so the
    request cannot be repeated to remove the file. *)
Theorem delete_song_unlink_failure st id oid song a :
  uniqueIds st ->
  castObjectId id = Some oid ->
  findSongById oid (songs st) = Some song ->
  Song.audioFile song = Some a -> a <> "" ->
  is_Some (files st !! blobPath a) ->
  unlinkFails (blobPath a) = true ->
  snd (deleteSong st id) = failure UnlinkError /\
  findSongById oid (songs (fst (deleteSong st id))) = None /\
  files (fst (deleteSong st id)) = files st /\
  deleteSong (fst (deleteSong st id)) id
  = (fst (deleteSong st id), notFound "Song not found").
Proof.
  intros [_ Hnd] Hcast Hfind Ha Hne [data Hq] Hfail.
  assert (E : deleteSong st id
              = (set_songs st (removeSong oid (songs st)), failure UnlinkError)).
  { unfold delete_api_songs_id. rewrite Hcast, Hfind.
    unfold unlinkBlob. rewrite Ha. apply String.eqb_neq in Hne. rewrite Hne.
    cbn [files set_songs]. now rewrite Hq, Hfail. }
  rewrite E. cbn [fst snd songs files set_songs].
  split; [reflexivity|]. split; [now apply findSongById_removed|].
  split; [reflexivity|].
  unfold delete_api_songs_id. rewrite Hcast. cbn [songs set_songs].
  now rewrite findSongById_removed.
Qed.

(** The files left by a cleanup loop that ran to its end. *)
Lemma unlinkBlobs_ran l : forall fs fs' : gmap string bytes,
  unlinkBlobs unlinkFails fs l = inr fs' ->
  forall p, fs' !! p = if decide (p ∈ blobPaths l) then None else fs !! p.
Proof.
  induction l as [|song l IH]; intros fs fs' Hrun p.
  - injection Hrun as <-. simpl.
    destruct (decide (p ∈ [])) as [Hin|]; [|reflexivity]. now apply elem_of_nil in Hin.
  - cbn [unlinkBlobs blobPaths] in *. unfold unlinkBlob in Hrun.
    destruct (Song.audioFile song) as [a|]; [|now apply (IH fs)].
    destruct (String.eqb a ""); [now apply (IH fs)|].
    destruct (fs !! blobPath a) as [data|] eqn:Hq.
    + destruct (unlinkFails (blobPath a)); [discriminate|].
      rewrite (IH _ _ Hrun p), lookup_delete.
      destruct (decide (p ∈ blobPaths l)) as [Hin|Hnin].
      * rewrite decide_True by now apply list_elem_of_further. reflexivity.
      * destruct (decide (blobPath a = p)) as [<-|Hne].
        -- rewrite decide_True by apply list_elem_of_here. reflexivity.
        -- rewrite decide_False; [reflexivity|].
           intros Hin. apply elem_of_cons in Hin as [->|Hin]; [now apply Hne | now apply Hnin].
    + rewrite (IH _ _ Hrun p).
      destruct (decide (p ∈ blobPaths l)) as [Hin|Hnin].
      * rewrite decide_True by now apply list_elem_of_further. reflexivity.
      * destruct (decide (p ∈ blobPath a :: blobPaths l)) as [Hin|]; [|reflexivity].
        apply elem_of_cons in Hin as [->|Hin]; [exact Hq | now destruct Hnin].
Qed.

Lemma NoDup_key_inj {A} (key : A -> ObjectId) (l : list A) (x y : A) :
  NoDup (key <$> l) -> x ∈ l -> y ∈ l -> key x = key y -> x = y.
Proof.
  intros Hnd Hx Hy Hkey.
  pose proof (find_by_unique key (key x) l x Hnd Hx eq_refl) as E1.
  pose proof (find_by_unique key (key x) l y Hnd Hy (eq_sym Hkey)) as E2.
  congruence.
Qed.

(** X10. With unique ids, after DELETE /api/playlists/:id has answered
    200 the playlist is no longer found (404), no song carries its id,
    none of its former songs can be found by its own id, and the files
    of those songs are gone while every other file is as before. *)
Theorem deleted_playlist_is_gone st id :
  uniqueIds st ->
  status (snd (deletePlaylist st id)) = 200 ->
  exists oid,
    castObjectId id = Some oid /\
    get (fst (deletePlaylist st id)) id = notFound "Playlist not found" /\
    songsOf oid (songs (fst (deletePlaylist st id))) = [] /\
    (forall s, s ∈ songsOf oid (songs st) ->
       findSongById (Song._id s) (songs (fst (deletePlaylist st id))) = None) /\
    (forall path, path ∈ blobPaths (songsOf oid (songs st)) ->
       files (fst (deletePlaylist st id)) !! path = None) /\
    (forall path, path ∉ blobPaths (songsOf oid (songs st)) ->
       files (fst (deletePlaylist st id)) !! path = files st !! path).
Proof.
  intros [Hpl Hsongs]. unfold delete_api_playlists_id at 1.
  destruct (castObjectId id) as [oid|] eqn:Hcast; [|discriminate].
  destruct (findPlaylistById oid (playlists st)) as [playlist|] eqn:Hfind; [|discriminate].
  cbn [songs files set_playlists].
  destruct (unlinkBlobs unlinkFails (files st) (songsOf oid (songs st)))
    as [fs|fs] eqn:Hrun; [discriminate|].
  intros _. exists oid. split; [reflexivity|].
  assert (E : deletePlaylist st id
              = (set_songs (set_files (set_playlists st (removePlaylist oid (playlists st))) fs)
                   (deleteSongsOf oid (songs st)),
                 json (MessageJson "Playlist and all songs deleted successfully"))).
  { unfold delete_api_playlists_id. rewrite Hcast, Hfind.
    cbn [songs files set_playlists]. now rewrite Hrun. }
  rewrite E. cbn [fst playlists songs files set_songs set_files set_playlists].
  split; [|split; [|split; [|split]]].
  - unfold get_api_playlists_id. rewrite Hcast.
    cbn [playlists set_songs set_files set_playlists].
    now rewrite findPlaylistById_removed.
  - apply songsOf_none. intros s Hs.
    apply elem_of_bfilter in Hs as [_ Hs]. now apply negb_true_iff, N.eqb_neq in Hs.
  - intros s Hs. apply elem_of_bfilter in Hs as [Hs Hoid]. apply N.eqb_eq in Hoid.
    destruct (findSongById (Song._id s) (deleteSongsOf oid (songs st))) as [s'|] eqn:Hs';
      [|reflexivity].
    exfalso. apply (find_by_Some Song._id) in Hs' as [Hin Hid].
    apply elem_of_bfilter in Hin as [Hin Hne].
    apply negb_true_iff, N.eqb_neq in Hne.
    assert (s' = s) by (eapply (NoDup_key_inj Song._id); eassumption).
    congruence.
  - intros path Hpath. rewrite (unlinkBlobs_ran _ _ _ Hrun path).
    now rewrite decide_True.
  - intros path Hpath. rewrite (unlinkBlobs_ran _ _ _ Hrun path).
    now rewrite decide_False.
Qed.


(** X12. A song whose [playlistId] names no playlist is in no answer of
    GET /api/playlists/:id, whatever id is asked for. *)
Theorem orphan_song_never_listed st song :
  (forall p, p ∈ playlists st -> Playlist._id p <> Song.playlistId song) ->
  forall id p l, get st id = json (DetailsJson p l) -> song ∉ l.
Proof.
  intros Horphan id p l. unfold get_api_playlists_id.
  destruct (castObjectId id) as [oid|]; [|discriminate].
  destruct (findPlaylistById oid (playlists st)) as [q|] eqn:Hfind; [|discriminate].
  intros [= <- <-] Hin.
  apply (find_by_Some Playlist._id) in Hfind as [Hq Hid].
  apply elem_of_bfilter in Hin as [_ Hoid]. apply N.eqb_eq in Hoid.
  apply (Horphan q Hq). congruence.
Qed.

(** *** Resetting *)





(** *** Stored names *)

Lemma dot_free_cons (c : ascii) (s : string) :
  JS.includes "." (String c s) = false -> c <> "."%char /\ JS.includes "." s = false.
Proof.
  cbn [JS.includes]. intros H. apply orb_false_elim in H as [Hc Hs].
  split; [|exact Hs]. intros ->. simpl in Hc. now destruct s.
Qed.

(** A name made of a suffix without dots and an extension that is empty
    or starts with a dot determines the suffix. *)
Lemma suffix_of_stored_name (s1 s2 e1 e2 : string) :
  JS.includes "." s1 = false -> JS.includes "." s2 = false ->
  (e1 = "" \/ exists t, e1 = String "." t) ->
  (e2 = "" \/ exists t, e2 = String "." t) ->
  s1 ++ e1 = s2 ++ e2 -> s1 = s2.
Proof.
  revert s2. induction s1 as [|c s1 IH]; intros [|d s2] H1 H2 He1 He2 E.
  - reflexivity.
  - exfalso. apply dot_free_cons in H2 as [Hd _]. simpl in E.
    destruct He1 as [->|(t & ->)]; [discriminate|]. injection E as E _. now apply Hd.
  - exfalso. apply dot_free_cons in H1 as [Hc _]. simpl in E.
    destruct He2 as [->|(t & ->)]; [discriminate|]. injection E as E _. now apply Hc.
  - apply dot_free_cons in H1 as [_ H1]. apply dot_free_cons in H2 as [_ H2].
    simpl in E. injection E as -> E. f_equal. now apply IH.
Qed.

(** X15. Two uploads whose generated suffixes differ never share a file:
    after the second request, whatever it answers, the file of the first
    song still holds the bytes of the first upload and its row is still
    there. The suffixes contain no dot, and [path.extname] gives an empty
    string or a string that starts with a dot. *)
Theorem uploads_do_not_clobber st req1 st1 song1 req2 :
  (forall name, extname name = "" \/ exists t, extname name = String "." t) ->
  JS.includes "." (uniqueSuffix req1) = false ->
  JS.includes "." (uniqueSuffix req2) = false ->
  uniqueSuffix req1 <> uniqueSuffix req2 ->
  post st req1 = (st1, created song1) ->
  exists file1 a1,
    req_file req1 = Some file1 /\ Song.audioFile song1 = Some a1 /\
    files st1 !! blobPath a1 = Some (content file1) /\
    files (fst (post st1 req2)) !! blobPath a1 = Some (content file1) /\
    song1 ∈ songs (fst (post st1 req2)).
Proof.
  intros Hext Hs1 Hs2 Hne Hpost.
  pose proof (post_created_stored _ _ _ _ _ _ _ Hpost) as Hin.
  apply post_created in Hpost as (file1 & md & p & oid & H).
  destruct H as (Hfile1 & _ & _ & _ & _ & _ & _ & _ & Hsong & Hst1).
  exists file1, ("/uploads/" ++ storedName extname req1 file1).
  change (blobPath ("/uploads/" ++ storedName extname req1 file1))
    with ("uploads/" ++ storedName extname req1 file1).
  assert (Hblob : files st1 !! ("uploads/" ++ storedName extname req1 file1)
                  = Some (content file1)).
  { rewrite Hst1. cbn [files set_songs]. apply uploaded_lookup. }
  split; [exact Hfile1|]. split; [now rewrite Hsong|]. split; [exact Hblob|].
  destruct (post_effect st1 req2) as (_ & Hsongs & Hfiles). split.
  - destruct Hfiles as [-> | (file2 & _ & ->)]; [exact Hblob|].
    rewrite lookup_insert_ne; [exact Hblob|].
    intros E. injection E as E. unfold storedName in E. apply Hne.
    apply (suffix_of_stored_name _ _ (extname (originalname file1))
             (extname (originalname file2)) Hs1 Hs2 (Hext _) (Hext _)).
    symmetry. exact E.
  - destruct Hsongs as [-> | (song2 & _ & _ & ->)]; [exact Hin|].
    apply elem_of_app. now left.
Qed.

End Service.

(** ** The player's clock *)

Lemma Qfloor_div60 (t : Q) : Qfloor (t / 60) = (Qfloor t / 60)%Z.
Proof.
  destruct t as [n d]. unfold Qdiv, Qmult, Qinv, Qfloor. simpl.
  rewrite Z.mul_1_r, Pos2Z.inj_mul. rewrite Z.div_div by lia. reflexivity.
Qed.

Lemma Qfloor_minus_Z (x : Q) (k : Z) : Qfloor (x - inject_Z k) = (Qfloor x - k)%Z.
Proof.
  destruct x as [n d]. unfold Qminus, Qplus, Qopp, inject_Z, Qfloor. simpl.
  rewrite Z.mul_1_r, Pos.mul_1_r.
  replace (n + - k * Z.pos d)%Z with (n + (- k) * Z.pos d)%Z by lia.
  rewrite Z.div_add by lia. lia.
Qed.

Lemma Qfloor_spec_mod (t : Q) : Qfloor (spec_mod t 60) = (Qfloor t mod 60)%Z.
Proof.
  unfold spec_mod. change 60%Q with (inject_Z 60).
  rewrite <- inject_Z_mult, Qfloor_minus_Z.
  change (inject_Z 60) with 60%Q. rewrite Qfloor_div60.
  rewrite Z.mod_eq by lia. reflexivity.
Qed.

(** The two parts of a formatted time are the minutes and seconds of the
    whole number of seconds. *)
Lemma formatTime_parts (t : Q) :
  (0 <= t)%Q ->
  formatTime (Some t)
  = JS.toString (Qfloor t / 60) ++ ":" ++ zero_padded_2 (Qfloor t mod 60).
Proof.
  intros Ht. change (formatTime (Some t)) with (formatDuration t).
  rewrite formatDuration_spec by exact Ht. unfold spec_duration.
  now rewrite Qfloor_div60, Qfloor_spec_mod.
Qed.

Lemma length_append (s t : string) :
  String.length (s ++ t) = String.length s + String.length t.
Proof.
  induction s as [|c s IH]; [reflexivity|].
  change (S (String.length (s ++ t)) = S (String.length s + String.length t)).
  now rewrite IH.
Qed.

Lemma append_assoc (s t u : string) : (s ++ t) ++ u = s ++ (t ++ u).
Proof.
  induction s as [|c s IH]; [reflexivity|].
  change (String c ((s ++ t) ++ u) = String c (s ++ (t ++ u))). now rewrite IH.
Qed.

(** Two strings with the same end of equal length have the same
    beginning. *)
Lemma append_same_length (s1 s2 t1 t2 : string) :
  String.length t1 = String.length t2 -> s1 ++ t1 = s2 ++ t2 -> s1 = s2 /\ t1 = t2.
Proof.
  revert s2. induction s1 as [|c s1 IH]; intros [|d s2] Hlen E.
  - auto.
  - exfalso. apply (f_equal String.length) in E.
    rewrite !length_append in E. simpl in E. lia.
  - exfalso. apply (f_equal String.length) in E.
    rewrite !length_append in E. simpl in E. lia.
  - change (String c (s1 ++ t1) = String d (s2 ++ t2)) in E.
    injection E as -> E. destruct (IH s2 Hlen E) as [-> ->]. auto.
Qed.

Lemma toString_inj (m n : Z) : JS.toString m = JS.toString n -> m = n.
Proof.
  intros E. pose proof (toString_decimal m) as Hm. rewrite E, toString_decimal in Hm.
  congruence.
Qed.

Lemma zero_padded_2_inj (a b : Z) :
  (0 <= a < 60)%Z -> (0 <= b < 60)%Z -> zero_padded_2 a = zero_padded_2 b -> a = b.
Proof.
  intros Ha Hb E.
  assert (Hall : forallb (fun i : nat => forallb (fun j : nat =>
            implb (String.eqb (zero_padded_2 (Z.of_nat i)) (zero_padded_2 (Z.of_nat j)))
                  (Nat.eqb i j)) (seq 0 60)) (seq 0 60) = true)
    by (vm_compute; reflexivity).
  rewrite forallb_forall in Hall.
  specialize (Hall (Z.to_nat a)). rewrite forallb_forall in Hall.
  specialize (Hall ltac:(apply in_seq; lia) (Z.to_nat b) ltac:(apply in_seq; lia)).
  rewrite !Z2Nat.id in Hall by lia. apply String.eqb_eq in E. rewrite E in Hall.
  simpl in Hall. apply Nat.eqb_eq in Hall. lia.
Qed.

(** X16. The player shows ["0:00"] for a time that is not a number, and
    for a time that is not negative exactly the string the server stores
    as a duration: the minutes and the two-digit seconds of the whole
    number of seconds. *)
Theorem formatTime_whole_seconds :
  formatTime None = "0:00" /\
  (forall t, formatTime (Some t) = formatDuration t) /\
  (forall t, (0 <= t)%Q ->
     formatTime (Some t)
     = JS.toString (Qfloor t / 60) ++ ":" ++ zero_padded_2 (Qfloor t mod 60) /\
     (0 <= Qfloor t mod 60 < 60)%Z /\
     (60 * (Qfloor t / 60) + Qfloor t mod 60 = Qfloor t)%Z).
Proof.
  split; [reflexivity|]. split; [reflexivity|]. intros t Ht.
  split; [now apply formatTime_parts|]. split.
  - apply Z.mod_pos_bound. lia.
  - symmetry. apply Z.div_mod. lia.
Qed.

(** X17. Two times that are not negative are shown as the same string
    exactly when they have the same whole number of seconds. *)
Theorem formatTime_same_iff_same_second (t1 t2 : Q) :
  (0 <= t1)%Q -> (0 <= t2)%Q ->
  formatTime (Some t1) = formatTime (Some t2) <-> Qfloor t1 = Qfloor t2.
Proof.
  intros H1 H2. rewrite !formatTime_parts by assumption. split.
  - intros E. rewrite <- !append_assoc in E.
    apply append_same_length in E as [E Hsec]; [|reflexivity].
    apply append_same_length in E as [Hmin _]; [|reflexivity].
    apply toString_inj in Hmin.
    apply zero_padded_2_inj in Hsec; [|apply Z.mod_pos_bound; lia..].
    rewrite (Z.div_mod (Qfloor t1) 60), (Z.div_mod (Qfloor t2) 60) by lia.
    congruence.
  - now intros ->.
Qed.

(** ** The browser and the server together *)

(** A list sorted newest first is determined by its elements when no two
    of them carry the same timestamp. *)
Lemma newest_first_unique (l1 l2 : list Playlist.t) :
  distinctTimestamps l2 ->
  StronglySorted newer_first l1 -> StronglySorted newer_first l2 ->
  l1 ≡ₚ l2 -> l1 = l2.
Proof.
  intros Hdistinct Hs1 Hs2 Hperm.
  apply (StronglySorted_unique_strong newer_first); try assumption.
  intros x1 x2 Hx1 Hx2 H12 H21. apply Hdistinct; [now rewrite <- Hperm | exact Hx2 |].
  unfold newer_first in *. lia.
Qed.

Lemma distinctTimestamps_perm (l1 l2 : list Playlist.t) :
  l1 ≡ₚ l2 -> distinctTimestamps l1 -> distinctTimestamps l2.
Proof.
  intros Hperm Hd p q Hp Hq. apply Hd; now rewrite Hperm.
Qed.

Lemma StronglySorted_bfilter (f : Playlist.t -> bool) (l : list Playlist.t) :
  StronglySorted newer_first l -> StronglySorted newer_first (List.filter f l).
Proof.
  induction 1 as [|x l Hs IH Hx]; [constructor|]. simpl.
  destruct (f x); [|exact IH]. constructor; [exact IH|].
  rewrite Forall_forall in *. intros y Hy. apply elem_of_bfilter in Hy as [Hy _].
  now apply Hx.
Qed.

Lemma bfilter_perm {A} (f : A -> bool) (l1 l2 : list A) :
  l1 ≡ₚ l2 -> List.filter f l1 ≡ₚ List.filter f l2.
Proof.
  induction 1 as [|x l1 l2 _ IH|x y l|l1 l2 l3 _ IH1 _ IH2]; simpl.
  - reflexivity.
  - destruct (f x); [now constructor | exact IH].
  - destruct (f x), (f y); try reflexivity. apply perm_swap.
  - now transitivity (List.filter f l2).
Qed.

Section Browser.

Variable extname : string -> string.
Variable castObjectId : string -> option ObjectId.
Variable parseFile : bytes -> option Metadata.
Variable unlinkFails : string -> bool.
Variable idString : ObjectId -> string.

Local Abbreviation post := (post_api_songs extname castObjectId parseFile).
Local Abbreviation created song := {| status := 201; body := SongJson song |}.

(** Only the 201 answer of POST /api/songs resolves in the browser. *)
Lemma post_resolves st req :
  resolves (snd (post st req)) = true -> exists song, snd (post st req) = created song.
Proof.
  unfold post_api_songs, upload.
  destruct (req_file req) as [file|]; [|discriminate].
  destruct (negb (fileFilter extname file)); [discriminate|].
  destruct (fileSizeLimit <? _)%Z; [discriminate|].
  destruct (_ ≫= parseFile) as [md|]; [|discriminate].
  destruct (newSong _ _ _ _ _ _ _) as [song|]; [|discriminate].
  destruct (findSongById _ _); [discriminate|].
  intros _. now exists song.
Qed.

(** X18. When the list of the browser is the one the server would
    answer, it still is after the playlist form has been submitted,
    whatever the server answers: a created playlist is put in front,
    where the server lists it. The new timestamp is later than the
    stored ones, and no two stored ones are equal. *)
Theorem playlist_form_keeps_list_coherent name creator now id st ui :
  listCoherent st ui ->
  distinctTimestamps (playlists st) ->
  (forall q, q ∈ playlists st -> (Playlist.createdAt q < now)%Z) ->
  listCoherent (fst (UI.PlaylistForm_handleSubmit name creator now id st ui))
               (snd (UI.PlaylistForm_handleSubmit name creator now id st ui)).
Proof.
  intros Hcoh Hdistinct Hnewest. unfold UI.PlaylistForm_handleSubmit.
  destruct (post_api_playlists st _) as [st' res] eqn:Hpost.
  assert (Hsame : st' = st -> listCoherent st' ui) by (now intros ->).
  unfold post_api_playlists in Hpost. cbn [body_name body_creator playlist_id] in Hpost.
  destruct (String.eqb name ""); [injection Hpost as <- <-; now apply Hsame|].
  destruct (findPlaylistById id (playlists st)); [injection Hpost as <- <-; now apply Hsame|].
  injection Hpost as <- <-. clear Hsame.
  change (resolves {| status := 201; body := ?b |}) with true. cbn [body fst snd].
  unfold listCoherent in *. cbn [UI.playlists UI.handlePlaylistCreated playlists set_playlists].
  set (p := Playlist.mk id name (Some creator) now).
  rewrite Hcoh. apply newest_first_unique.
  - apply (distinctTimestamps_perm (p :: playlists st)).
    { rewrite sortByCreatedAtDesc_perm. apply Permutation_cons_append. }
    intros x y Hx Hy Ht.
    apply elem_of_cons in Hx as [->|Hx]; apply elem_of_cons in Hy as [->|Hy].
    + reflexivity.
    + specialize (Hnewest y Hy). simpl in Ht. lia.
    + specialize (Hnewest x Hx). simpl in Ht. lia.
    + now apply Hdistinct.
  - constructor; [apply sortByCreatedAtDesc_sorted|].
    rewrite Forall_forall. intros q Hq. rewrite sortByCreatedAtDesc_perm in Hq.
    specialize (Hnewest q Hq). unfold newer_first. simpl. lia.
  - apply sortByCreatedAtDesc_sorted.
  - rewrite !sortByCreatedAtDesc_perm. apply Permutation_cons_append.
Qed.

(** X19. When the list of the browser is the one the server would
    answer, it still is after the delete button of the selected playlist
    has been used, provided no unlink of the cascade throws: the browser
    drops the playlist exactly when the server has deleted it. Ids are
    unique and written so that the server casts them back, and no two
    timestamps are equal. *)
Theorem delete_playlist_keeps_list_coherent confirmed st ui :
  listCoherent st ui ->
  uniqueIds st ->
  distinctTimestamps (playlists st) ->
  (forall pid, UI.selectedPlaylistId ui = Some pid ->
               castObjectId (idString pid) = Some pid) ->
  (forall pid path, UI.selectedPlaylistId ui = Some pid ->
     path ∈ blobPaths (songsOf pid (songs st)) ->
     is_Some (files st !! path) -> unlinkFails path = false) ->
  listCoherent (fst (UI.deletePlaylist castObjectId unlinkFails idString confirmed st ui))
               (snd (UI.deletePlaylist castObjectId unlinkFails idString confirmed st ui)).
Proof.
  intros Hcoh [Hids _] Hdistinct Hcast Hok. unfold UI.deletePlaylist.
  destruct (UI.selectedPlaylistId ui) as [pid|]; [|exact Hcoh].
  destruct (UI.playlist ui); [|exact Hcoh].
  destruct confirmed; [|exact Hcoh]. cbn [negb].
  unfold delete_api_playlists_id. rewrite (Hcast pid eq_refl).
  destruct (findPlaylistById pid (playlists st)) as [p|]; [|exact Hcoh].
  cbn [songs files set_playlists].
  destruct (unlinkBlobs_completes unlinkFails (songsOf pid (songs st)) (files st)
              (fun path => Hok pid path eq_refl)) as (fs' & -> & _).
  change (resolves (json ?b)) with true. cbn [fst snd].
  unfold listCoherent in *.
  cbn [UI.playlists UI.handlePlaylistDeleted playlists set_songs set_files set_playlists].
  rewrite Hcoh, removePlaylist_filter by exact Hids.
  apply newest_first_unique.
  - intros x y Hx Hy. rewrite sortByCreatedAtDesc_perm in Hx, Hy.
    apply elem_of_bfilter in Hx as [Hx _]. apply elem_of_bfilter in Hy as [Hy _].
    now apply Hdistinct.
  - apply StronglySorted_bfilter, sortByCreatedAtDesc_sorted.
  - apply sortByCreatedAtDesc_sorted.
  - etransitivity; [apply bfilter_perm, sortByCreatedAtDesc_perm|].
    symmetry. apply sortByCreatedAtDesc_perm.
Qed.


Lemma songsOf_snoc (oid : ObjectId) (l : list Song.t) (song : Song.t) :
  Song.playlistId song = oid -> songsOf oid (l ++ [song]) = (songsOf oid l ++ [song])%list.
Proof.
  intros <-. unfold songsOf. rewrite List.filter_app. simpl.
  now rewrite N.eqb_refl.
Qed.

(** X21. When the playlist and the songs the browser shows are the ones
    the server would answer for the selected id, they still are after
    the song form has been submitted, whatever the server answers: a
    created song is appended, where the server lists it. The id of the
    loaded playlist is written so that the server casts it back. *)
Theorem song_form_keeps_details_coherent audioFile suffix id st ui :
  detailsCoherent st ui ->
  (forall p, UI.playlist ui = Some p ->
             castObjectId (idString (Playlist._id p)) = Some (Playlist._id p)) ->
  detailsCoherent
    (fst (UI.SongForm_handleSubmit extname castObjectId parseFile idString
            audioFile suffix id st ui))
    (snd (UI.SongForm_handleSubmit extname castObjectId parseFile idString
            audioFile suffix id st ui)).
Proof.
  intros Hcoh Hcast. unfold UI.SongForm_handleSubmit.
  destruct (UI.selectedPlaylistId ui) as [pid|] eqn:Hsel; [|exact Hcoh].
  destruct (UI.playlist ui) as [p|] eqn:Hpl; [|exact Hcoh].
  destruct audioFile as [file|]; [|exact Hcoh].
  set (req := {| body_playlistId := Some (idString (Playlist._id p));
                 req_file := Some file; uniqueSuffix := suffix; song_id := id |}).
  destruct (post st req) as [st' res] eqn:Hpost.
  destruct (Hcoh pid Hsel) as (p' & Hfind & Hpl' & Hsongs).
  assert (p' = p) as -> by congruence.
  apply (find_by_Some Playlist._id) in Hfind as Hp. destruct Hp as [_ Hid].
  destruct (resolves res) eqn:Hres.
  - pose proof (post_resolves st req) as Hcreated. rewrite Hpost in Hcreated.
    cbn [snd] in Hcreated. destruct (Hcreated Hres) as (song & ->). cbn [body fst snd].
    apply post_created in Hpost as (file' & md & idp & oid & H).
    destruct H as (_ & _ & _ & _ & Hidp & Hoid & _ & _ & Hsong & ->).
    injection Hidp as <-. rewrite (Hcast p eq_refl) in Hoid. injection Hoid as <-.
    intros pid' Hsel'. cbn [UI.selectedPlaylistId UI.handleSongAdded] in Hsel'.
    rewrite Hsel in Hsel'. injection Hsel' as <-.
    exists p. cbn [playlists songs set_songs uploaded set_files
                   UI.playlist UI.songs UI.handleSongAdded].
    split; [exact Hfind|]. split; [exact Hpl|].
    rewrite Hsongs. symmetry. apply songsOf_snoc. rewrite Hsong. exact Hid.
  - cbn [fst snd].
    destruct (post_effect extname castObjectId parseFile st req)
      as (Hplaylists & Hrows & _).
    rewrite Hpost in Hplaylists, Hrows. cbn [fst snd] in Hplaylists, Hrows.
    destruct Hrows as [Hrows | (song & -> & _)]; [|discriminate Hres].
    intros pid' Hsel'. rewrite Hplaylists, Hrows. now apply Hcoh.
Qed.

(** X22. When the playlist and the songs the browser shows are the ones
    the server would answer, they still are after the delete button of a
    song has been used, provided the unlink of its file does not throw:
    the browser drops the row exactly when the server has deleted it, and
    then the player does not hold the deleted song any more. Ids are
    unique and written so that the server casts them back. *)
Theorem delete_song_keeps_details_coherent confirmed songId st ui :
  detailsCoherent st ui ->
  uniqueIds st ->
  castObjectId (idString songId) = Some songId ->
  (forall song a, findSongById songId (songs st) = Some song ->
     Song.audioFile song = Some a -> unlinkFails (blobPath a) = false) ->
  detailsCoherent
    (fst (UI.deleteSong castObjectId unlinkFails idString confirmed songId st ui))
    (snd (UI.deleteSong castObjectId unlinkFails idString confirmed songId st ui)) /\
  (confirmed = true -> is_Some (findSongById songId (songs st)) ->
   forall c,
     UI.currentSong
       (snd (UI.deleteSong castObjectId unlinkFails idString confirmed songId st ui))
     = Some c ->
     Song._id c <> songId).
Proof.
  intros Hcoh [_ Hids] Hcast Hok. unfold UI.deleteSong.
  destruct confirmed; cbn [negb]; [|split; [exact Hcoh | discriminate]].
  unfold delete_api_songs_id. rewrite Hcast.
  destruct (findSongById songId (songs st)) as [song|] eqn:Hfind.
  - destruct (unlinkBlob_succeeds unlinkFails (files st) (Song.audioFile song)
                (fun a => Hok song a eq_refl)) as (fs' & Hrun & _).
    cbn [files set_songs]. rewrite Hrun.
    change (resolves (json ?b)) with true. cbn [fst snd]. split.
    + intros pid Hsel. cbn [UI.selectedPlaylistId UI.songDeleted] in Hsel.
      destruct (Hcoh pid Hsel) as (p & Hp & Hpl & Hsongs).
      exists p. cbn [playlists songs set_songs set_files UI.playlist UI.songs UI.songDeleted].
      split; [exact Hp|]. split; [exact Hpl|].
      rewrite Hsongs, removeSong_filter by exact Hids.
      unfold songsOf. apply bfilter_comm.
    + intros _ _ c. cbn [UI.currentSong UI.songDeleted].
      destruct (UI.currentSong ui) as [c0|]; [|discriminate].
      destruct (N.eqb_spec (Song._id c0) songId); [discriminate|].
      now intros [= <-].
  - change (resolves {| status := 404; body := ?b |}) with false. cbn [fst snd].
    split; [exact Hcoh|]. intros _ [x Hx]. discriminate.
Qed.


End Browser.

(** ** The remaining handlers and the browser on concrete requests *)

Lemma library_uniqueIds : uniqueIds Sample.library.
Proof. split; compute_done. Qed.

Lemma library_distinctTimestamps : distinctTimestamps (playlists Sample.library).
Proof.
  intros p q Hp Hq.
  apply list_elem_of_In in Hp. apply list_elem_of_In in Hq. simpl in Hp, Hq.
  destruct Hp as [<-|[<-|[]]], Hq as [<-|[<-|[]]]; (reflexivity || discriminate).
Qed.

Lemma library_older_than (t : Z) :
  (1700000005000 < t)%Z ->
  forall q, q ∈ playlists Sample.library -> (Playlist.createdAt q < t)%Z.
Proof.
  intros Ht q Hq. apply list_elem_of_In in Hq. simpl in Hq.
  destruct Hq as [<-|[<-|[]]]; simpl; lia.
Qed.

Lemma sample_extname_shape (name : string) :
  Sample.extname name = "" \/ exists t, Sample.extname name = String "." t.
Proof.
  induction name as [|c name IH]; [now left|]. cbn [Sample.extname].
  destruct (JS.includes "." name); [exact IH|].
  destruct (Ascii.eqb_spec c "."%char) as [->|_]; [right; eauto | now left].
Qed.

Lemma handlers_keep_ids_unique_witness :
  uniqueIds Sample.library /\
  uniqueIds (fst (Sample.post Sample.library
                    (Sample.songRequest (Some Sample.idB) (Some (Sample.track Byte.x03)) 4%N))) /\
  uniqueIds (fst (delete_api_playlists_id Sample.castObjectId Sample.unlinkNeverFails
                    Sample.library Sample.idA)).
Proof.
  split; [exact library_uniqueIds|].
  destruct (handlers_keep_ids_unique Sample.extname Sample.castObjectId Sample.parseFile
              Sample.unlinkNeverFails Sample.library library_uniqueIds)
    as (_ & Hpost & Hdelete & _).
  split; [apply Hpost | apply Hdelete].
Defined.

Lemma created_playlist_is_found_witness :
  let req := Demo.playlistRequest "Road Trip" 1700000000000%Z 161%N in
  let st' := set_playlists Sample.emptyStore [Sample.roadTrip] in
  post_api_playlists Sample.emptyStore req
  = (st', {| status := 201; body := PlaylistJson Sample.roadTrip |}) /\
  Sample.castObjectId Sample.idA = Some 161%N /\
  get_api_playlists_id Sample.castObjectId st' Sample.idA
  = json (DetailsJson Sample.roadTrip []).
Proof.
  intros req st'.
  assert (Hpost : post_api_playlists Sample.emptyStore req
                  = (st', {| status := 201; body := PlaylistJson Sample.roadTrip |}))
    by reflexivity.
  split; [exact Hpost|]. split; [reflexivity|].
  apply (created_playlist_is_found Sample.castObjectId Sample.emptyStore req st'
           Sample.roadTrip Sample.idA Hpost eq_refl).
  intros s Hs. now apply elem_of_nil in Hs.
Defined.

Lemma new_playlist_listed_first_witness :
  let req := Demo.playlistRequest "Late" 1700000009000%Z 200%N in
  let p := Playlist.mk 200%N "Late" (Some "DJ Nitin") 1700000009000%Z in
  let st' := set_playlists Sample.library [Sample.roadTrip; Sample.evening; p] in
  post_api_playlists Sample.library req = (st', {| status := 201; body := PlaylistJson p |}) /\
  exists rest,
    get_api_playlists st' = json (PlaylistsJson (p :: rest)) /\
    rest ≡ₚ [Sample.roadTrip; Sample.evening].
Proof.
  intros req p st'.
  assert (Hpost : post_api_playlists Sample.library req
                  = (st', {| status := 201; body := PlaylistJson p |}))
    by reflexivity.
  split; [exact Hpost|].
  apply (new_playlist_listed_first Sample.library req st' p Hpost).
  apply library_older_than. reflexivity.
Defined.

Lemma added_song_is_listed_witness :
  let req := Sample.songRequest (Some Sample.idB) (Some (Sample.track Byte.x03)) 4%N in
  let st' := fst (Sample.post Sample.library req) in
  let song := Song.mk 4%N "track" (Some "Unknown Artist") (Some "0:30")
                (Some "/uploads/1700000000000-4.mp3") 178%N in
  Sample.post Sample.library req = (st', {| status := 201; body := SongJson song |}) /\
  get_api_playlists_id Sample.castObjectId st' Sample.idB
  = json (DetailsJson Sample.evening [Sample.song3; song]).
Proof.
  intros req st' song.
  assert (Hpost : Sample.post Sample.library req
                  = (st', {| status := 201; body := SongJson song |}))
    by (vm_compute; reflexivity).
  split; [exact Hpost|].
  apply (added_song_is_listed Sample.extname Sample.castObjectId Sample.parseFile
           Sample.library req st' song Sample.idB Sample.evening Hpost eq_refl eq_refl).
Defined.

Lemma add_then_delete_restores_witness :
  let req := Sample.songRequest (Some Sample.idB) (Some (Sample.track Byte.x03)) 4%N in
  let st' := fst (Sample.post Sample.library req) in
  let song := Song.mk 4%N "track" (Some "Unknown Artist") (Some "0:30")
                (Some "/uploads/1700000000000-4.mp3") 178%N in
  Sample.post Sample.library req = (st', {| status := 201; body := SongJson song |}) /\
  files Sample.library !! "uploads/1700000000000-4.mp3" = None /\
  delete_api_songs_id Sample.castObjectId Sample.unlinkNeverFails st'
    "000000000000000000000004"
  = (Sample.library, json (MessageJson "Song deleted successfully")).
Proof.
  intros req st' song.
  assert (Hpost : Sample.post Sample.library req
                  = (st', {| status := 201; body := SongJson song |}))
    by (vm_compute; reflexivity).
  split; [exact Hpost|]. split; [vm_compute; reflexivity|].
  apply (add_then_delete_restores Sample.extname Sample.castObjectId Sample.parseFile
           Sample.unlinkNeverFails Sample.library req st' song
           "000000000000000000000004" Hpost eq_refl).
  - intros a [= <-]. vm_compute. reflexivity.
  - intros a _. reflexivity.
Defined.

Lemma create_then_delete_restores_witness :
  let req := Demo.playlistRequest "Late" 1700000009000%Z 200%N in
  let p := Playlist.mk 200%N "Late" (Some "DJ Nitin") 1700000009000%Z in
  let st' := set_playlists Sample.library [Sample.roadTrip; Sample.evening; p] in
  post_api_playlists Sample.library req = (st', {| status := 201; body := PlaylistJson p |}) /\
  Sample.castObjectId "0000000000000000000000c8" = Some 200%N /\
  delete_api_playlists_id Sample.castObjectId Sample.unlinkNeverFails st'
    "0000000000000000000000c8"
  = (Sample.library, json (MessageJson "Playlist and all songs deleted successfully")).
Proof.
  intros req p st'.
  assert (Hpost : post_api_playlists Sample.library req
                  = (st', {| status := 201; body := PlaylistJson p |}))
    by reflexivity.
  split; [exact Hpost|]. split; [reflexivity|].
  apply (create_then_delete_restores Sample.castObjectId Sample.unlinkNeverFails
           Sample.library req st' p "0000000000000000000000c8" Hpost eq_refl).
  intros s Hs. apply list_elem_of_In in Hs. simpl in Hs.
  destruct Hs as [<-|[<-|[<-|[]]]]; discriminate.
Defined.

Lemma delete_song_twice_witness :
  let id := "000000000000000000000001" in
  let r := delete_api_songs_id Sample.castObjectId Sample.unlinkNeverFails Sample.library id in
  Sample.castObjectId id = Some 1%N /\
  findSongById 1%N (songs Sample.library) = Some Sample.song1 /\
  snd r = json (MessageJson "Song deleted successfully") /\
  delete_api_songs_id Sample.castObjectId Sample.unlinkNeverFails (fst r) id
  = (fst r, {| status := 404; body := ErrorText "Song not found" |}) /\
  files (fst r) !! "uploads/a.mp3" = None /\
  files (fst r) !! "uploads/b.mp3" = files Sample.library !! "uploads/b.mp3".
Proof.
  intros id r. split; [reflexivity|]. split; [reflexivity|].
  destruct (delete_song_twice Sample.castObjectId Sample.unlinkNeverFails Sample.library
              id 1%N Sample.song1 library_uniqueIds eq_refl eq_refl (fun a _ => eq_refl))
    as (Hfirst & Hsecond & _ & _ & Hgone & Hother).
  split; [exact Hfirst|]. split; [exact Hsecond|]. split.
  - apply (Hgone "/uploads/a.mp3"); [reflexivity | discriminate].
  - apply Hother. intros a [= <-]. discriminate.
Defined.

Lemma delete_song_unlink_failure_witness :
  let id := "000000000000000000000001" in
  let fails := Sample.unlinkFailsOn "uploads/a.mp3" in
  let r := delete_api_songs_id Sample.castObjectId fails Sample.library id in
  fails (blobPath "/uploads/a.mp3") = true /\
  snd r = failure UnlinkError /\
  findSongById 1%N (songs (fst r)) = None /\
  files (fst r) = files Sample.library /\
  delete_api_songs_id Sample.castObjectId fails (fst r) id
  = (fst r, {| status := 404; body := ErrorText "Song not found" |}).
Proof.
  intros id fails r. split; [reflexivity|].
  apply (delete_song_unlink_failure Sample.castObjectId fails Sample.library id 1%N
           Sample.song1 "/uploads/a.mp3" library_uniqueIds eq_refl eq_refl eq_refl).
  - discriminate.
  - vm_compute. eauto.
  - reflexivity.
Defined.

Lemma deleted_playlist_is_gone_witness :
  let r := delete_api_playlists_id Sample.castObjectId Sample.unlinkNeverFails
             Sample.library Sample.idA in
  status (snd r) = 200 /\
  get_api_playlists_id Sample.castObjectId (fst r) Sample.idA
  = {| status := 404; body := ErrorText "Playlist not found" |} /\
  findSongById 2%N (songs (fst r)) = None /\
  files (fst r) !! "uploads/b.mp3" = None /\
  files (fst r) !! "uploads/c.mp3" = files Sample.library !! "uploads/c.mp3".
Proof.
  intros r.
  assert (Hok : status (snd r) = 200) by (vm_compute; reflexivity).
  split; [exact Hok|].
  destruct (deleted_playlist_is_gone Sample.castObjectId Sample.unlinkNeverFails
              Sample.library Sample.idA library_uniqueIds Hok)
    as (oid & Hcast & Hget & _ & Hsongs & Hgone & Hother).
  assert (oid = 161%N) as -> by (vm_compute in Hcast; congruence).
  split; [exact Hget|]. split; [|split].
  - apply (Hsongs Sample.song2). apply list_elem_of_In. simpl. auto.
  - apply Hgone. apply list_elem_of_In. simpl. auto.
  - apply Hother. intros Hin. apply list_elem_of_In in Hin. simpl in Hin.
    destruct Hin as [H|[H|[]]]; discriminate.
Defined.


Lemma orphan_song_never_listed_witness :
  get_api_playlists_id Sample.castObjectId Demo.orphaned Sample.idB
  = json (DetailsJson Sample.evening [Sample.song3]) /\
  Sample.song1 ∉ [Sample.song3].
Proof.
  assert (Hget : get_api_playlists_id Sample.castObjectId Demo.orphaned Sample.idB
                 = json (DetailsJson Sample.evening [Sample.song3]))
    by reflexivity.
  split; [exact Hget|].
  apply (orphan_song_never_listed Sample.castObjectId Demo.orphaned Sample.song1)
    with (id := Sample.idB) (p := Sample.evening); [|exact Hget].
  intros p Hp. apply list_elem_of_In in Hp. simpl in Hp.
  destruct Hp as [<-|[]]. discriminate.
Defined.


Lemma uploads_do_not_clobber_witness :
  let req1 := Sample.songRequest (Some Sample.idB) (Some (Sample.track Byte.x03)) 4%N in
  let req2 := Sample.songRequest (Some Sample.idA) (Some (Sample.track Byte.x01)) 5%N in
  let st1 := fst (Sample.post Sample.library req1) in
  let song1 := Song.mk 4%N "track" (Some "Unknown Artist") (Some "0:30")
                 (Some "/uploads/1700000000000-4.mp3") 178%N in
  Sample.post Sample.library req1 = (st1, {| status := 201; body := SongJson song1 |}) /\
  uniqueSuffix req1 <> uniqueSuffix req2 /\
  files (fst (Sample.post st1 req2)) !! "uploads/1700000000000-4.mp3" = Some [Byte.x03] /\
  song1 ∈ songs (fst (Sample.post st1 req2)).
Proof.
  intros req1 req2 st1 song1.
  assert (Hpost : Sample.post Sample.library req1
                  = (st1, {| status := 201; body := SongJson song1 |}))
    by (vm_compute; reflexivity).
  assert (Hne : uniqueSuffix req1 <> uniqueSuffix req2) by (vm_compute; discriminate).
  split; [exact Hpost|]. split; [exact Hne|].
  destruct (uploads_do_not_clobber Sample.extname Sample.castObjectId Sample.parseFile
              Sample.library req1 st1 song1 req2 sample_extname_shape
              eq_refl eq_refl Hne Hpost)
    as (file1 & a1 & Hfile & Haudio & _ & Hkept & Hrow).
  injection Hfile as <-. injection Haudio as <-.
  split; [exact Hkept | exact Hrow].
Defined.

Lemma formatTime_same_iff_same_second_witness :
  (0 <= 1257 # 10)%Q /\ (0 <= 125)%Q /\
  Qfloor (1257 # 10) = Qfloor 125 /\
  formatTime (Some (1257 # 10)) = formatTime (Some 125%Q).
Proof.
  assert (H1 : (0 <= 1257 # 10)%Q) by (vm_compute; discriminate).
  assert (H2 : (0 <= 125)%Q) by (vm_compute; discriminate).
  assert (H : Qfloor (1257 # 10) = Qfloor 125) by reflexivity.
  split; [exact H1|]. split; [exact H2|]. split; [exact H|].
  apply (formatTime_same_iff_same_second (1257 # 10) 125 H1 H2). exact H.
Defined.

Lemma demo_listCoherent : listCoherent Sample.library Demo.ui.
Proof. reflexivity. Qed.

Lemma demo_detailsCoherent : detailsCoherent Sample.library Demo.ui.
Proof.
  intros pid [= <-]. exists Sample.roadTrip. repeat split; reflexivity.
Qed.

Lemma playlist_form_keeps_list_coherent_witness :
  let r := UI.PlaylistForm_handleSubmit "Late" "DJ Nitin" 1700000009000%Z 200%N
             Sample.library Demo.ui in
  listCoherent Sample.library Demo.ui /\
  listCoherent (fst r) (snd r) /\
  UI.playlists (snd r)
  = [Playlist.mk 200%N "Late" (Some "DJ Nitin") 1700000009000%Z;
     Sample.evening; Sample.roadTrip].
Proof.
  intros r. split; [exact demo_listCoherent|]. split; [|reflexivity].
  apply (playlist_form_keeps_list_coherent "Late" "DJ Nitin" 1700000009000%Z 200%N
           Sample.library Demo.ui demo_listCoherent library_distinctTimestamps).
  apply library_older_than. reflexivity.
Defined.

Lemma delete_playlist_keeps_list_coherent_witness :
  let r := UI.deletePlaylist Sample.castObjectId Sample.unlinkNeverFails Demo.idString
             true Sample.library Demo.ui in
  Sample.castObjectId (Demo.idString 161%N) = Some 161%N /\
  listCoherent (fst r) (snd r) /\
  UI.playlists (snd r) = [Sample.evening] /\
  playlists (fst r) = [Sample.evening].
Proof.
  intros r. split; [vm_compute; reflexivity|].
  split; [|split; vm_compute; reflexivity].
  apply (delete_playlist_keeps_list_coherent Sample.castObjectId Sample.unlinkNeverFails
           Demo.idString true Sample.library Demo.ui demo_listCoherent
           library_uniqueIds library_distinctTimestamps).
  - intros pid [= <-]. vm_compute. reflexivity.
  - intros pid path _ _ _. reflexivity.
Defined.


Lemma song_form_keeps_details_coherent_witness :
  let r := UI.SongForm_handleSubmit Sample.extname Sample.castObjectId Sample.parseFile
             Demo.idString (Some (Sample.track Byte.x03)) "1700000000000-4" 4%N
             Sample.library Demo.ui in
  detailsCoherent Sample.library Demo.ui /\
  detailsCoherent (fst r) (snd r) /\
  UI.songs (snd r)
  = [Sample.song1; Sample.song2;
     Song.mk 4%N "track" (Some "Unknown Artist") (Some "0:30")
       (Some "/uploads/1700000000000-4.mp3") 161%N].
Proof.
  intros r. split; [exact demo_detailsCoherent|]. split; [|vm_compute; reflexivity].
  apply (song_form_keeps_details_coherent Sample.extname Sample.castObjectId
           Sample.parseFile Demo.idString (Some (Sample.track Byte.x03))
           "1700000000000-4" 4%N Sample.library Demo.ui demo_detailsCoherent).
  intros p [= <-]. vm_compute. reflexivity.
Defined.

Lemma delete_song_keeps_details_coherent_witness :
  let r := UI.deleteSong Sample.castObjectId Sample.unlinkNeverFails Demo.idString
             true 1%N Sample.library Demo.ui in
  Sample.castObjectId (Demo.idString 1%N) = Some 1%N /\
  detailsCoherent (fst r) (snd r) /\
  UI.songs (snd r) = [Sample.song2] /\
  UI.currentSong (snd r) = None.
Proof.
  intros r.
  assert (Hcast : Sample.castObjectId (Demo.idString 1%N) = Some 1%N)
    by (vm_compute; reflexivity).
  split; [exact Hcast|].
  destruct (delete_song_keeps_details_coherent Sample.castObjectId Sample.unlinkNeverFails
              Demo.idString true 1%N Sample.library Demo.ui demo_detailsCoherent
              library_uniqueIds Hcast (fun _ _ _ _ => eq_refl)) as [Hcoh _].
  split; [exact Hcoh|]. split; vm_compute; reflexivity.
Defined.


Lemma formatTime_whole_seconds_witness :
  (0 <= 7261 # 2)%Q /\
  formatTime (Some (7261 # 2)) = "60:30" /\
  (60 * (Qfloor (7261 # 2) / 60) + Qfloor (7261 # 2) mod 60 = 3630)%Z.
Proof.
  assert (Ht : (0 <= 7261 # 2)%Q) by (vm_compute; discriminate).
  split; [exact Ht|].
  destruct formatTime_whole_seconds as (_ & _ & Hparts).
  destruct (Hparts (7261 # 2) Ht) as (Hstring & _ & Hsum).
  split; [rewrite Hstring; reflexivity | exact Hsum].
Defined.
